(** * Files Dividers plugin (src/main.ts): a shallow embedding and its properties

    The plugin keeps a list of divider records in its settings, renders them
    as CSS rules inside one <style> element and tags the matching rows of the
    file explorer.  This development embeds

    - JavaScript strings as sequences of UTF-16 code units ([jsstring]),
      with [===], [String.prototype.trim] and the one regular expression the
      plugin uses;
    - the settings object, the part of the DOM the plugin reads and writes,
      the notices it shows and the data it saves, as one state ([World]);
    - every method of [FilesDividersPlugin] as a state transformer;
    - the handlers [onload] registers (the context menu, the timers of
      ['layout-change']) and the handlers and the list of records of the
      settings tab.

    Not embedded: the registration of the ribbon icon and of the commands,
    the fixed widgets of the settings tab, and [console.log]. *)

From Stdlib Require Import String Ascii DecimalString.
From Stdlib Require Import List NArith ZArith Bool Lia Permutation.
Import ListNotations.

Local Open Scope N_scope.

(* ================================================================== *)
(** ** JavaScript strings *)
(* ================================================================== *)

Module JS.

(** A JavaScript string is a finite sequence of 16-bit code units. *)
Definition jsstring := list N.

(** A literal of the source, written with its ASCII characters. *)
Definition js (s : String.string) : jsstring :=
  map Ascii.N_of_ascii (String.list_ascii_of_string s).

(** The characters the source names. *)
Definition dot : N := 46.      (* '.' *)
Definition slash : N := 47.    (* '/' *)
Definition dquote : jsstring := [34].  (* the double quote of a template *)
Definition nl : jsstring := [10].      (* a line break inside a template *)

(** [a === b] on two strings: the same code units in the same order. *)
Fixpoint strictEq (a b : jsstring) : bool :=
  match a, b with
  | [], [] => true
  | x :: a', y :: b' => (x =? y) && strictEq a' b'
  | _, _ => false
  end.

(** WhiteSpace and LineTerminator of ECMAScript: what [trim] removes.
    TAB, LF, VT, FF, CR, SP, NBSP, U+1680, U+2000..U+200A, LS, PS, U+202F,
    U+205F, U+3000 and the byte order mark U+FEFF. *)
Definition isWhiteSpace (c : N) : bool :=
  existsb (N.eqb c)
    [9; 10; 11; 12; 13; 32; 160; 5760; 8232; 8233; 8239; 8287; 12288; 65279]
  || ((8192 <=? c) && (c <=? 8202)).

Fixpoint trimStart (s : jsstring) : jsstring :=
  match s with
  | [] => []
  | c :: r => if isWhiteSpace c then trimStart r else s
  end.

Definition trimEnd (s : jsstring) : jsstring := rev (trimStart (rev s)).

(** [s.trim()] *)
Definition trim (s : jsstring) : jsstring := trimEnd (trimStart s).

(** The character class [[^/.]] of the extension pattern. *)
Definition isExtChar (c : N) : bool := negb (c =? slash) && negb (c =? dot).

(** Does [/\.[^/.]+$/] match starting at the head of [s]?  The pattern has
    no [m] flag, so [$] is the end of the input: the match must be a dot
    followed by all that remains, which is one or more [[^/.]]. *)
Definition extAt (s : jsstring) : bool :=
  match s with
  | c :: (_ :: _) as rest => (c =? dot) && forallb isExtChar rest
  | _ => false
  end.

(** [s.replace(/\.[^/.]+$/, <empty string>)]: the pattern is not global, so
    the leftmost match, if there is one, is replaced by the empty string. *)
Fixpoint withoutExt (s : jsstring) : jsstring :=
  if extAt s then []
  else match s with
       | [] => []
       | c :: r => c :: withoutExt r
       end.

(** [String(n)] for an integer [n] (of a magnitude that prints without an
    exponent): its decimal digits, with a minus sign when negative. *)
Definition numberToString (n : Z) : jsstring :=
  js (DecimalString.NilZero.string_of_int (Z.to_int n)).

(** [String(n / 2)] for an integer [n]: the division is that of JavaScript
    numbers, so an odd [n] gives a value ending in [.5]. *)
Definition halfToString (n : Z) : jsstring :=
  (if (n <? 0)%Z then js "-" else [])
    ++ numberToString (Z.abs n / 2)
    ++ (if Z.odd n then js ".5" else []).

End JS.
Import JS.

(* ================================================================== *)
(** ** The settings object *)
(* ================================================================== *)

(** ['file' | 'folder'], ['above' | 'below'], ['line' | 'space' | 'gradient'] *)
Inductive ItemType := file | folder.
Inductive Position := above | below.
Inductive Style := line | space | gradient.

Definition ItemType_eqb (a b : ItemType) : bool :=
  match a, b with file, file | folder, folder => true | _, _ => false end.
Definition Position_eqb (a b : Position) : bool :=
  match a, b with above, above | below, below => true | _, _ => false end.

(** The text of a value of these types, as a template interpolates it. *)
Definition ItemType_str (t : ItemType) : jsstring :=
  match t with file => js "file" | folder => js "folder" end.
Definition Position_str (p : Position) : jsstring :=
  match p with above => js "above" | below => js "below" end.

(** An entry of [FilesDividersSettings.dividers]. *)
Record Divider := mkDivider {
  itemName : jsstring;
  itemType : ItemType;
  position : Position;
  style : Style
}.

(** [interface FilesDividersSettings].  [dividerThickness] is a number that
    the settings slider only sets to an integer; it is embedded as [Z]. *)
Record FilesDividersSettings := mkSettings {
  dividers : list Divider;
  dividerColor : jsstring;
  dividerThickness : Z;
  enabled : bool
}.

Definition DEFAULT_SETTINGS : FilesDividersSettings :=
  {| dividers := []; dividerColor := js "#484848";
     dividerThickness := 1; enabled := true |}.

(* ================================================================== *)
(** ** The document *)
(* ================================================================== *)

(** The four classes the plugin adds to and removes from a row. *)
Record DividerClasses := mkClasses {
  nav_folder_divider_above : bool;
  nav_folder_divider_below : bool;
  nav_file_divider_above : bool;
  nav_file_divider_below : bool
}.

Definition noClasses : DividerClasses := mkClasses false false false false.

(** [classList.add(`nav-folder-divider-${position}`)] and its file twin. *)
Definition addClass (t : ItemType) (p : Position) (c : DividerClasses)
  : DividerClasses :=
  match t, p with
  | folder, above => mkClasses true (nav_folder_divider_below c)
                       (nav_file_divider_above c) (nav_file_divider_below c)
  | folder, below => mkClasses (nav_folder_divider_above c) true
                       (nav_file_divider_above c) (nav_file_divider_below c)
  | file, above => mkClasses (nav_folder_divider_above c)
                     (nav_folder_divider_below c) true (nav_file_divider_below c)
  | file, below => mkClasses (nav_folder_divider_above c)
                     (nav_folder_divider_below c) (nav_file_divider_above c) true
  end.

Definition hasClass (t : ItemType) (p : Position) (c : DividerClasses) : bool :=
  match t, p with
  | folder, above => nav_folder_divider_above c
  | folder, below => nav_folder_divider_below c
  | file, above => nav_file_divider_above c
  | file, below => nav_file_divider_below c
  end.

(** A row of the file explorer: an element of class [nav-folder] or
    [nav-file].  [title] is the [textContent] of the first descendant of
    class [nav-folder-title] (resp. [nav-file-title]), [None] when the row
    has no such descendant. *)
Inductive NavKind := nav_folder | nav_file.

Record Element := mkElement {
  kind : NavKind;
  title : option jsstring;
  classList : DividerClasses;
  data_item : option jsstring;   (* the attribute data-item, when set *)
  data_type : option jsstring    (* the attribute data-type, when set *)
}.

(** The part of the document the plugin touches: the <style> elements of id
    [files-dividers-styles] (their [textContent], in document order), and the
    rows below the element of class [nav-files-container], [None] when the
    file explorer is not in the document. *)
Record Document := mkDocument {
  styleElements : list jsstring;
  fileExplorer : option (list Element)
}.

(** Everything a method of the plugin reads or writes. *)
Record World := mkWorld {
  settings : FilesDividersSettings;
  document : Document;
  notices : list jsstring;                 (* [new Notice(..)], oldest first *)
  savedData : list FilesDividersSettings   (* [saveData(..)] calls, oldest first *)
}.

Definition Action := World -> World.

Definition andThen (a b : Action) : Action := fun w => b (a w).
Notation "a ;; b" := (andThen a b) (at level 61, right associativity).

Definition setSettings (f : FilesDividersSettings -> FilesDividersSettings)
  : Action :=
  fun w => mkWorld (f (settings w)) (document w) (notices w) (savedData w).

Definition setDocument (f : Document -> Document) : Action :=
  fun w => mkWorld (settings w) (f (document w)) (notices w) (savedData w).

(** [new Notice(msg)] *)
Definition Notice (msg : jsstring) : Action :=
  fun w => mkWorld (settings w) (document w) (notices w ++ [msg]) (savedData w).

(** [this.saveData(this.settings)] *)
Definition saveData : Action :=
  fun w => mkWorld (settings w) (document w) (notices w)
             (savedData w ++ [settings w]).

Definition setDividers (ds : list Divider) (s : FilesDividersSettings) :=
  mkSettings ds (dividerColor s) (dividerThickness s) (enabled s).

Definition setEnabled (b : bool) (s : FilesDividersSettings) :=
  mkSettings (dividers s) (dividerColor s) (dividerThickness s) b.

(* ================================================================== *)
(** ** Matching a record against a row *)
(* ================================================================== *)

(** The test of the folder branch of [addDividerClasses]:
    [folderName === divider.itemName]. *)
Definition folderMatches (dividerName folderName : jsstring) : bool :=
  strictEq folderName dividerName.

(** The test of the file branch of [addDividerClasses]. *)
Definition fileMatches (dividerName fileName : jsstring) : bool :=
  let fileNameWithoutExt := withoutExt fileName in
  let dividerNameWithoutExt := withoutExt dividerName in
  strictEq fileName dividerName
  || strictEq fileNameWithoutExt dividerNameWithoutExt
  || strictEq fileName dividerNameWithoutExt
  || strictEq fileNameWithoutExt dividerName.

(** The body of the [if]: the class of the record's position, and the two
    attributes. *)
Definition tag (d : Divider) (el : Element) : Element :=
  mkElement (kind el) (title el)
    (addClass (itemType d) (position d) (classList el))
    (Some (itemName d))
    (Some (ItemType_str (itemType d))).

(** What one record does to one row: the body of the outer [forEach] of
    [addDividerClasses], at one element of the inner one. *)
Definition tagWith (d : Divider) (el : Element) : Element :=
  match itemType d, kind el with
  | folder, nav_folder =>
      match title el with
      | Some text =>
          let folderName := trim text in
          if folderMatches (itemName d) folderName then tag d el else el
      | None => el
      end
  | file, nav_file =>
      match title el with
      | Some text =>
          let fileName := trim text in
          if fileMatches (itemName d) fileName then tag d el else el
      | None => el
      end
  | _, _ => el
  end.

(** The body of the [forEach] over [querySelectorAll('[data-item]')]: only
    an element that has the attribute [data-item] is visited. *)
Definition untag (el : Element) : Element :=
  match data_item el with
  | Some _ => mkElement (kind el) (title el) noClasses None None
  | None => el
  end.

(* ================================================================== *)
(** ** The style sheet *)
(* ================================================================== *)

Definition indent (n : nat) : jsstring := repeat 32 n.

Fixpoint join (sep : jsstring) (l : list jsstring) : jsstring :=
  match l with
  | [] => []
  | [x] => x
  | x :: r => x ++ sep ++ join sep r
  end.

Definition pseudoElement (d : Divider) : jsstring :=
  match position d with above => js "before" | below => js "after" end.

Definition itemClass (d : Divider) : jsstring :=
  match itemType d with folder => js "nav-folder" | file => js "nav-file" end.

(** The edge of the row the segment sits on. *)
Definition edge (d : Divider) : jsstring :=
  match position d with above => js "top" | below => js "bottom" end.

(** The selector both rules of a record share. *)
Definition selector (d : Divider) : jsstring :=
  js "." ++ itemClass d ++ js "-divider-" ++ Position_str (position d)
  ++ js "[data-item=" ++ dquote ++ itemName d ++ dquote ++ js "]"
  ++ js "[data-type=" ++ dquote ++ ItemType_str (itemType d) ++ dquote ++ js "]".

(** The declarations of the pseudo-element (the visible segment), in the
    order of the template: property and value. *)
Definition segmentDeclarations (s : FilesDividersSettings) (d : Divider)
  : list (jsstring * jsstring) :=
  [ (js "content", js "''");
    (js "position", js "absolute");
    (js "left", js "0");
    (js "right", js "0");
    (js "width", js "100%");
    (js "height", numberToString (dividerThickness s) ++ js "px");
    (js "background-color", dividerColor s);
    (js "border-radius", halfToString (dividerThickness s) ++ js "px");
    (js "opacity", js "0.6");
    (edge d, js "-" ++ numberToString (8 + dividerThickness s) ++ js "px") ].

(** The declarations of the row itself. *)
Definition spacingDeclarations (d : Divider) : list (jsstring * jsstring) :=
  [ (js "position", js "relative");
    (js "margin-" ++ edge d, js "16px") ].

Definition declaration (pv : jsstring * jsstring) : jsstring :=
  indent 20 ++ fst pv ++ js ": " ++ snd pv ++ js ";" ++ nl.

Definition ruleBlock (sel : jsstring) (decls : list (jsstring * jsstring))
  : jsstring :=
  indent 16 ++ sel ++ js " {" ++ nl
  ++ concat (map declaration decls)
  ++ indent 16 ++ js "}" ++ nl.

(** The template literal of [applyDividers], for one record. *)
Definition cssRule (s : FilesDividersSettings) (d : Divider) : jsstring :=
  nl
  ++ indent 16 ++ js "/* --- Divider styles for files and folders --- */" ++ nl
  ++ ruleBlock (selector d ++ js "::" ++ pseudoElement d)
       (segmentDeclarations s d)
  ++ nl
  ++ indent 16 ++ js "/* --- Add spacing and position to dividers --- */" ++ nl
  ++ ruleBlock (selector d) (spacingDeclarations d)
  ++ indent 12.

(** [this.settings.dividers.map(divider => ..).join('\n')] *)
Definition cssRules (s : FilesDividersSettings) : jsstring :=
  join nl (map (cssRule s) (dividers s)).

(* ================================================================== *)
(** ** The methods of [FilesDividersPlugin] *)
(* ================================================================== *)

Module Dom.

(** [removeDividers], on the document: [getElementById] finds the first
    element of the id, which is removed; then every element that has the
    attribute [data-item] loses its attributes and classes. *)
Definition removeDividers (doc : Document) : Document :=
  mkDocument (tl (styleElements doc))
             (option_map (map untag) (fileExplorer doc)).

(** [document.head.appendChild(styleElement)] *)
Definition appendStyle (css : jsstring) (doc : Document) : Document :=
  mkDocument (styleElements doc ++ [css]) (fileExplorer doc).

(** [addDividerClasses]: nothing without a file explorer; else the rows are
    untagged, and every record in turn visits every row. *)
Definition addDividerClasses (s : FilesDividersSettings) (doc : Document)
  : Document :=
  match fileExplorer doc with
  | None => doc
  | Some rows =>
      mkDocument (styleElements doc)
        (Some (fold_left (fun rows d => map (tagWith d) rows)
                         (dividers s) (map untag rows)))
  end.

(** [applyDividers] *)
Definition applyDividers (s : FilesDividersSettings) (doc : Document)
  : Document :=
  let doc := removeDividers doc in
  if (length (dividers s) =? 0)%nat then doc
  else addDividerClasses s (appendStyle (cssRules s) doc).

End Dom.

Definition removeDividers : Action := setDocument Dom.removeDividers.

Definition applyDividers : Action :=
  fun w => setDocument (Dom.applyDividers (settings w)) w.

(** [saveSettings].  The method is asynchronous; what follows its [await]
    is run here at once, before the next event is handled. *)
Definition saveSettings : Action :=
  saveData ;;
  (fun w => if enabled (settings w) then applyDividers w else removeDividers w).

(** The test of [addDividerToItem] and [removeDividerFromItem]:
    [d.itemName === itemName && d.itemType === itemType
     && d.position === position]. *)
Definition sameItemAt (name : jsstring) (type : ItemType) (pos : Position)
  (d : Divider) : bool :=
  strictEq (itemName d) name
  && ItemType_eqb (itemType d) type
  && Position_eqb (position d) pos.

(** The test of [removeDividersFromItem]. *)
Definition sameItem (name : jsstring) (type : ItemType) (d : Divider) : bool :=
  strictEq (itemName d) name && ItemType_eqb (itemType d) type.

Definition alreadyExistsNotice name type pos : jsstring :=
  js "Divider already exists " ++ Position_str pos ++ js " "
  ++ ItemType_str type ++ js " " ++ dquote ++ name ++ dquote.

Definition addedNotice name type pos : jsstring :=
  js "Added divider " ++ Position_str pos ++ js " "
  ++ ItemType_str type ++ js " " ++ dquote ++ name ++ dquote.

Definition removedNotice name type pos : jsstring :=
  js "Removed divider " ++ Position_str pos ++ js " "
  ++ ItemType_str type ++ js " " ++ dquote ++ name ++ dquote.

Definition removedCountNotice (n : nat) name type : jsstring :=
  js "Removed " ++ numberToString (Z.of_nat n) ++ js " divider(s) from "
  ++ ItemType_str type ++ js " " ++ dquote ++ name ++ dquote.

Definition clearedNotice (count : nat) : jsstring :=
  js "Cleared " ++ numberToString (Z.of_nat count) ++ js " divider(s)".

(** [addDividerToItem] *)
Definition addDividerToItem (name : jsstring) (type : ItemType)
  (pos : Position) : Action :=
  fun w =>
    match find (sameItemAt name type pos) (dividers (settings w)) with
    | Some _ => Notice (alreadyExistsNotice name type pos) w
    | None =>
        (setSettings (fun s =>
           setDividers (dividers s ++ [mkDivider name type pos line]) s) ;;
         saveSettings ;;
         Notice (addedNotice name type pos)) w
    end.

(** [removeDividerFromItem] *)
Definition removeDividerFromItem (name : jsstring) (type : ItemType)
  (pos : Position) : Action :=
  fun w =>
    let before := length (dividers (settings w)) in
    let w := setSettings (fun s =>
               setDividers
                 (filter (fun d => negb (sameItemAt name type pos d))
                         (dividers s)) s) w in
    if (length (dividers (settings w)) <? before)%nat
    then (saveSettings ;; Notice (removedNotice name type pos)) w
    else w.

(** [removeDividersFromItem] *)
Definition removeDividersFromItem (name : jsstring) (type : ItemType)
  : Action :=
  fun w =>
    let removedCount := length (dividers (settings w)) in
    let w := setSettings (fun s =>
               setDividers
                 (filter (fun d => negb (sameItem name type d))
                         (dividers s)) s) w in
    let newCount := length (dividers (settings w)) in
    if (newCount <? removedCount)%nat
    then (saveSettings ;;
          Notice (removedCountNotice (removedCount - newCount) name type)) w
    else w.

(** [clearAllDividers] *)
Definition clearAllDividers : Action :=
  fun w =>
    if (length (dividers (settings w)) =? 0)%nat
    then Notice (js "No dividers to clear") w
    else
      let count := length (dividers (settings w)) in
      (setSettings (setDividers []) ;;
       saveSettings ;;
       Notice (clearedNotice count)) w.

(** [toggleDividers] *)
Definition toggleDividers : Action :=
  setSettings (fun s => setEnabled (negb (enabled s)) s) ;;
  saveSettings ;;
  (fun w =>
     let status := if enabled (settings w) then js "enabled"
                   else js "disabled" in
     Notice (js "Files dividers " ++ status) w).

(** The last step of [onload]; also a ['layout-change'] whose timer fires
    before anything else runs (the event and its timer are told apart in
    [Session], further down). *)
Definition applyIfEnabled : Action :=
  fun w => if enabled (settings w) then applyDividers w else w.

(** [onunload] *)
Definition onunload : Action := removeDividers.

(** The user's actions, and a run of them. *)
Inductive Command :=
| Add (name : jsstring) (type : ItemType) (pos : Position)
| RemoveOne (name : jsstring) (type : ItemType) (pos : Position)
| RemoveAll (name : jsstring) (type : ItemType)
| ClearAll
| Toggle
| LayoutChange.

Definition perform (c : Command) : Action :=
  match c with
  | Add n t p => addDividerToItem n t p
  | RemoveOne n t p => removeDividerFromItem n t p
  | RemoveAll n t => removeDividersFromItem n t
  | ClearAll => clearAllDividers
  | Toggle => toggleDividers
  | LayoutChange => applyIfEnabled
  end.

Definition run (cs : list Command) (w : World) : World :=
  fold_left (fun w c => perform c w) cs w.

(** A world before the plugin has done anything: the given settings and
    rows, no style element, no notice, nothing saved. *)
Definition freshRow (k : NavKind) (text : jsstring) : Element :=
  mkElement k (Some text) noClasses None None.

Definition initialWorld (s : FilesDividersSettings)
  (explorer : option (list Element)) : World :=
  mkWorld s (mkDocument [] explorer) [] [].

(* ================================================================== *)
(** ** Loading the settings and [onload] *)
(* ================================================================== *)

(** What [loadData()] resolves to is [null] ([None] here) or an object that
    has some of the fields of the settings. *)
Record SavedData := mkSavedData {
  saved_dividers : option (list Divider);
  saved_dividerColor : option jsstring;
  saved_dividerThickness : option Z;
  saved_enabled : option bool
}.

Definition orElse {A : Type} (o : option A) (d : A) : A :=
  match o with Some x => x | None => d end.

(** [Object.assign({}, base, data)]: the fields of [data], where it has
    them, over those of [base]; a [null] source is skipped. *)
Definition assign (base : FilesDividersSettings) (data : option SavedData)
  : FilesDividersSettings :=
  match data with
  | None => base
  | Some o =>
      mkSettings (orElse (saved_dividers o) (dividers base))
                 (orElse (saved_dividerColor o) (dividerColor base))
                 (orElse (saved_dividerThickness o) (dividerThickness base))
                 (orElse (saved_enabled o) (enabled base))
  end.

(** [loadSettings], [data] being what [loadData()] resolves to. *)
Definition loadSettings (data : option SavedData) : Action :=
  setSettings (fun _ => assign DEFAULT_SETTINGS data).

(** What [saveData(settings)] leaves for the next [loadData()]: an object
    with the four fields. *)
Definition toSavedData (s : FilesDividersSettings) : SavedData :=
  mkSavedData (Some (dividers s)) (Some (dividerColor s))
              (Some (dividerThickness s)) (Some (enabled s)).

(** [onload], as far as the state goes: the settings are loaded, and the
    dividers applied if they are enabled. *)
Definition onload (data : option SavedData) : Action :=
  loadSettings data ;; applyIfEnabled.

(* ================================================================== *)
(** ** The timers of ['layout-change'] *)
(* ================================================================== *)

(** The handler of ['layout-change'] tests [enabled] and, if it holds, asks
    for [applyDividers] to be called 100 ms later; the callback does not test
    anything.  All timers have the same delay and the same callback, so the
    number of those pending is all there is to know about them. *)
Record Session := mkSession {
  world : World;
  timers : nat
}.

(** The event ['layout-change']. *)
Definition onLayoutChange (ss : Session) : Session :=
  if enabled (settings (world ss))
  then mkSession (world ss) (S (timers ss))
  else ss.

(** A pending timer fires. *)
Definition onTimeout (ss : Session) : Session :=
  match timers ss with
  | O => ss
  | S n => mkSession (applyDividers (world ss)) n
  end.

(** Any other handler of the plugin runs. *)
Definition during (a : Action) (ss : Session) : Session :=
  mkSession (a (world ss)) (timers ss).

(** What the user can ask for: the entries of the context menu, the two
    commands and the ribbon icon. *)
Inductive UserAction :=
| DoAdd (name : jsstring) (type : ItemType) (pos : Position)
| DoRemoveOne (name : jsstring) (type : ItemType) (pos : Position)
| DoRemoveAll (name : jsstring) (type : ItemType)
| DoClearAll
| DoToggle.

Definition commandOf (a : UserAction) : Command :=
  match a with
  | DoAdd n t p => Add n t p
  | DoRemoveOne n t p => RemoveOne n t p
  | DoRemoveAll n t => RemoveAll n t
  | DoClearAll => ClearAll
  | DoToggle => Toggle
  end.

(** What happens in a session, one thing at a time: an action of the user,
    a ['layout-change'], or a pending timer that fires. *)
Inductive Event :=
| Act (a : UserAction)
| LayoutChanged
| TimerFired.

Definition handle (e : Event) (ss : Session) : Session :=
  match e with
  | Act a => during (perform (commandOf a)) ss
  | LayoutChanged => onLayoutChange ss
  | TimerFired => onTimeout ss
  end.

Definition play (es : list Event) (ss : Session) : Session :=
  fold_left (fun ss e => handle e ss) es ss.

(* ================================================================== *)
(** ** The context menu *)
(* ================================================================== *)

(** An entry the ['file-menu'] handler adds: title, icon, and what a click
    calls. *)
Record MenuItem := mkMenuItem {
  menuTitle : jsstring;
  menuIcon : jsstring;
  onClick : Command
}.

Definition isSome {A : Type} (o : option A) : bool :=
  match o with Some _ => true | None => false end.

(** The entries added below the separator for a file or folder of name
    [name] ([file.name]) and type [type]. *)
Definition fileMenu (s : FilesDividersSettings) (name : jsstring)
  (type : ItemType) : list MenuItem :=
  let existingAbove := find (sameItemAt name type above) (dividers s) in
  let existingBelow := find (sameItemAt name type below) (dividers s) in
  [ match existingAbove with
    | Some _ => mkMenuItem (js "Remove divider above") (js "x")
                  (RemoveOne name type above)
    | None => mkMenuItem (js "Add divider above") (js "minus")
                (Add name type above)
    end;
    match existingBelow with
    | Some _ => mkMenuItem (js "Remove divider below") (js "x")
                  (RemoveOne name type below)
    | None => mkMenuItem (js "Add divider below") (js "minus")
                (Add name type below)
    end ]
  ++ (if isSome existingAbove || isSome existingBelow
      then [mkMenuItem (js "Remove all dividers") (js "trash")
              (RemoveAll name type)]
      else []).

(* ================================================================== *)
(** ** The settings tab *)
(* ================================================================== *)

Definition setDividerColor (c : jsstring) (s : FilesDividersSettings) :=
  mkSettings (dividers s) c (dividerThickness s) (enabled s).

Definition setDividerThickness (t : Z) (s : FilesDividersSettings) :=
  mkSettings (dividers s) (dividerColor s) t (enabled s).

(** The [onChange] handlers of the toggle, the color picker and the
    slider. *)
Definition onChangeEnabled (value : bool) : Action :=
  setSettings (setEnabled value) ;; saveSettings.

Definition onChangeColor (value : jsstring) : Action :=
  setSettings (setDividerColor value) ;; saveSettings.

Definition onChangeThickness (value : Z) : Action :=
  setSettings (setDividerThickness value) ;; saveSettings.

(** [array.splice(start, 1)]: a negative [start] counts from the end, and
    [start] is clamped to the array. *)
Definition splice1 {A : Type} (start : Z) (l : list A) : list A :=
  let len := Z.of_nat (length l) in
  let from := if (start <? 0)%Z then Z.max (len + start) 0
              else Z.min start len in
  firstn (Z.to_nat from) l ++ skipn (S (Z.to_nat from)) l.

(** The [onClick] of a Remove button.  [indexOf] compares objects by
    identity, which the records of this embedding do not have: its result is
    the parameter [globalIndex], the position in the array of the record the
    button was made for, or -1 when that record is no longer in the array. *)
Definition onClickRemove (globalIndex : Z) : Action :=
  setSettings (fun s => setDividers (splice1 globalIndex (dividers s)) s) ;;
  saveSettings.

(** What [display] puts below the heading [Current Dividers].  A record's
    entry keeps the position the record has in the array when [display]
    runs. *)
Inductive TabItem :=
| Paragraph (text : jsstring)
| Heading (text : jsstring)
| DividerEntry (name desc : jsstring) (index : nat)
| ClearAllButton.

Definition isFolder (d : Divider) : bool := ItemType_eqb (itemType d) folder.
Definition isFile (d : Divider) : bool := ItemType_eqb (itemType d) file.

(** The array with the position of each element. *)
Definition indexed {A : Type} (l : list A) : list (nat * A) :=
  combine (seq 0 (length l)) l.

Definition folderIcon : jsstring := [55357; 56513].  (* U+1F4C1 *)
Definition fileIcon : jsstring := [55357; 56516].    (* U+1F4C4 *)

Definition dividerEntry (icon kindName : jsstring) (e : nat * Divider)
  : TabItem :=
  let divider := snd e in
  DividerEntry (icon ++ js " " ++ itemName divider)
    (js "Divider " ++ Position_str (position divider) ++ js " the " ++ dquote
     ++ itemName divider ++ dquote ++ js " " ++ kindName)
    (fst e).

Definition currentDividers (s : FilesDividersSettings) : list TabItem :=
  if (length (dividers s) =? 0)%nat
  then [Paragraph (js "No dividers configured. Right-click on files or folders to add dividers.")]
  else
    let folderDividers := filter (fun e => isFolder (snd e)) (indexed (dividers s)) in
    let fileDividers := filter (fun e => isFile (snd e)) (indexed (dividers s)) in
    (if (0 <? length folderDividers)%nat
     then Heading (js "Folder Dividers")
          :: map (dividerEntry folderIcon (js "folder")) folderDividers
     else [])
    ++ (if (0 <? length fileDividers)%nat
        then Heading (js "File Dividers")
             :: map (dividerEntry fileIcon (js "file")) fileDividers
        else [])
    ++ [ClearAllButton].

(** What a click on an entry of the tab calls, right after [display]. *)
Definition clickTabItem (it : TabItem) : Action :=
  match it with
  | DividerEntry _ _ index => onClickRemove (Z.of_nat index)
  | ClearAllButton => clearAllDividers
  | _ => fun w => w
  end.

(* ================================================================== *)
(** ** Vocabulary of the properties *)
(* ================================================================== *)

(** What identifies a record in the store. *)
Definition key (d : Divider) : jsstring * ItemType * Position :=
  (itemName d, itemType d, position d).

Definition addCommand (k : jsstring * ItemType * Position) : Command :=
  let '(name, type, pos) := k in Add name type pos.

(** The value a list of declarations gives to a property: the last one
    wins, as in CSS. *)
Fixpoint valueOf (prop : jsstring) (decls : list (jsstring * jsstring))
  : option jsstring :=
  match decls with
  | [] => None
  | (p, v) :: r =>
      match valueOf prop r with
      | Some v' => Some v'
      | None => if strictEq p prop then Some v else None
      end
  end.

Definition isNone {A : Type} (o : option A) : bool :=
  match o with None => true | Some _ => false end.

Definition noClass (c : DividerClasses) : bool :=
  negb (nav_folder_divider_above c || nav_folder_divider_below c
        || nav_file_divider_above c || nav_file_divider_below c).

(** A row that carries none of the plugin's classes and attributes. *)
Definition untagged (el : Element) : bool :=
  noClass (classList el) && isNone (data_item el) && isNone (data_type el).

(** A row as the plugin leaves it: a class or a [data-type] only together
    with a [data-item]. *)
Definition consistent (el : Element) : bool :=
  negb (isNone (data_item el)) || untagged el.

(** The row without any tag. *)
Definition bare (el : Element) : Element :=
  mkElement (kind el) (title el) noClasses None None.

Definition rowsOf (doc : Document) : list Element :=
  match fileExplorer doc with Some rows => rows | None => [] end.

(** A document as the plugin leaves it: at most one style element of its
    id, and consistent rows. *)
Definition wellFormed (doc : Document) : bool :=
  (length (styleElements doc) <=? 1)%nat && forallb consistent (rowsOf doc).

(** A document without any trace of the plugin: no style element of its
    id, no tagged row. *)
Definition retracted (doc : Document) : bool :=
  (length (styleElements doc) =? 0)%nat && forallb untagged (rowsOf doc).

(** The document without any trace of the plugin: what is left is the
    rows with their kinds and titles. *)
Definition bareDocument (doc : Document) : Document :=
  mkDocument [] (option_map (map bare) (fileExplorer doc)).

(** The loop of [addDividerClasses] over the records. *)
Definition tagAll (ds : list Divider) (rows : list Element) : list Element :=
  fold_left (fun rows d => map (tagWith d) rows) ds rows.

(** What [saveSettings] leaves in the document. *)
Definition presentation (s : FilesDividersSettings) (doc : Document)
  : Document :=
  if enabled s then Dom.applyDividers s doc else Dom.removeDividers doc.

(** The document shows the settings: it is what [saveSettings] builds from
    its rows. *)
Definition inSync (w : World) : Prop :=
  document w = presentation (settings w) (bareDocument (document w)).

(** Does the record tag the row?  The tests [tagWith] makes. *)
Definition matchesRow (d : Divider) (el : Element) : bool :=
  match itemType d, kind el, title el with
  | folder, nav_folder, Some text => folderMatches (itemName d) (trim text)
  | file, nav_file, Some text => fileMatches (itemName d) (trim text)
  | _, _, _ => false
  end.

(** The last record of the list that tags the row. *)
Definition lastMatch (ds : list Divider) (el : Element) : option Divider :=
  find (fun d => matchesRow d el) (rev ds).

(** The row as the records leave it, said at once: a class for every
    type and position of a record that tags it, and the attributes of the
    last such record. *)
Definition tagsOf (ds : list Divider) (el : Element) : Element :=
  let has t p := existsb (fun d => matchesRow d el
                                   && ItemType_eqb (itemType d) t
                                   && Position_eqb (position d) p) ds in
  mkElement (kind el) (title el)
    (mkClasses (has folder above) (has folder below)
               (has file above) (has file below))
    (option_map itemName (lastMatch ds el))
    (option_map (fun d => ItemType_str (itemType d)) (lastMatch ds el)).

(** The row carries what the selector of the record's rules names: the
    class, and the two attribute values. *)
Definition carriesSelector (d : Divider) (el : Element) : bool :=
  hasClass (itemType d) (position d) (classList el)
  && match data_item el with
     | Some i => strictEq i (itemName d)
     | None => false
     end
  && match data_type el with
     | Some t => strictEq t (ItemType_str (itemType d))
     | None => false
     end.

(** What the next [loadData()] resolves to, after a session that started
    from [data]. *)
Definition dataAfter (data : option SavedData) (w : World)
  : option SavedData :=
  match savedData w with
  | [] => data
  | s :: r => Some (toSavedData (last r s))
  end.

(** A new session over the rows of the explorer, none of them tagged. *)
Definition startSession (data : option SavedData)
  (explorer : option (list Element)) : World :=
  onload data (initialWorld DEFAULT_SETTINGS explorer).

Definition isLayoutChange (c : Command) : bool :=
  match c with LayoutChange => true | _ => false end.

Definition isToggle (c : Command) : bool :=
  match c with Toggle => true | _ => false end.

(** The positions the entries of the settings tab stand for, in the order
    of the tab. *)
Definition entryIndices (items : list TabItem) : list nat :=
  flat_map (fun it => match it with
                      | DividerEntry _ _ index => [index]
                      | _ => []
                      end) items.

(** The array without its element at position [i]. *)
Definition without {A : Type} (i : nat) (l : list A) : list A :=
  firstn i l ++ skipn (S i) l.

(** The document is the one [applyDividers] builds from the settings and
    its rows. *)
Definition applied (w : World) : Prop :=
  document w = Dom.applyDividers (settings w) (bareDocument (document w)).

(** The document shows the settings, or shows them as if dividers were
    enabled. *)
Definition shows (w : World) : Prop :=
  applied w
  \/ (enabled (settings w) = false
      /\ document w = bareDocument (document w)).

Definition isTimerFired (e : Event) : bool :=
  match e with TimerFired => true | _ => false end.

(** A session that starts: [onload] has run, no timer is pending. *)
Definition newSession (data : option SavedData)
  (explorer : option (list Element)) : Session :=
  mkSession (startSession data explorer) 0.

(* ================================================================== *)
(** * Properties *)
(* ================================================================== *)

(** ** Strings *)

Lemma strictEq_iff (a b : jsstring) : strictEq a b = true <-> a = b.
Proof.
  revert b; induction a as [|x a IH]; intros [|y b]; simpl;
    try (split; [discriminate | discriminate]); try tauto.
  rewrite andb_true_iff, N.eqb_eq, IH.
  split; [intros [-> ->]; reflexivity | intros [= -> ->]; auto].
Qed.

Lemma strictEq_refl (a : jsstring) : strictEq a a = true.
Proof. apply strictEq_iff; reflexivity. Qed.

Lemma strictEq_sym (a b : jsstring) : strictEq a b = strictEq b a.
Proof.
  apply eq_true_iff_eq. rewrite !strictEq_iff. split; congruence.
Qed.

Lemma isExtChar_not_dot (e : jsstring) :
  forallb isExtChar e = true -> ~ In dot e.
Proof.
  rewrite forallb_forall. intros H Hin. specialize (H _ Hin).
  unfold isExtChar in H. rewrite N.eqb_refl, andb_false_r in H. discriminate.
Qed.

(** Where the pattern matches, the string is a dot and a non-empty run of
    characters other than dot and slash. *)
Lemma extAt_true (s : jsstring) :
  extAt s = true ->
  exists e, s = dot :: e /\ e <> [] /\ forallb isExtChar e = true.
Proof.
  destruct s as [|c [|c' r]]; simpl; try discriminate.
  rewrite andb_true_iff, N.eqb_eq. intros [-> H].
  exists (c' :: r). repeat split; [discriminate | exact H].
Qed.

Lemma extAt_dot_inside (c : N) (p e : jsstring) :
  extAt (c :: p ++ dot :: e) = false.
Proof.
  unfold extAt. destruct (p ++ dot :: e) as [|x r] eqn:E.
  - destruct p; discriminate.
  - rewrite <- E. apply andb_false_iff. right.
    apply not_true_is_false. intros H. apply isExtChar_not_dot in H.
    apply H, in_or_app. right. left. reflexivity.
Qed.

(** A name without a dot is left as it is. *)
Lemma withoutExt_no_dot (s : jsstring) : ~ In dot s -> withoutExt s = s.
Proof.
  induction s as [|c r IH]; intros Hn; [reflexivity|].
  cbn [withoutExt]. destruct (extAt (c :: r)) eqn:E.
  - apply extAt_true in E. destruct E as (e & [= -> _] & _).
    exfalso. apply Hn. left. reflexivity.
  - f_equal. apply IH. intros Hin. apply Hn. right. exact Hin.
Qed.

(** A last dot followed by a non-empty run without dot and slash is cut
    off, with that run. *)
Lemma withoutExt_strips (p e : jsstring) :
  e <> [] -> forallb isExtChar e = true -> withoutExt (p ++ dot :: e) = p.
Proof.
  intros Hne He. induction p as [|c p IH].
  - cbn [app withoutExt]. destruct e as [|x e]; [congruence|].
    unfold extAt. rewrite N.eqb_refl, He. reflexivity.
  - cbn [app withoutExt]. rewrite extAt_dot_inside, IH. reflexivity.
Qed.

(** Nothing else is ever cut off: the result is the name itself, or the
    name up to its last dot. *)
Lemma withoutExt_cases (s : jsstring) :
  withoutExt s = s \/
  exists p e, s = p ++ dot :: e /\ e <> [] /\ ~ In dot e /\ withoutExt s = p.
Proof.
  induction s as [|c r IH]; [left; reflexivity|].
  cbn [withoutExt]. destruct (extAt (c :: r)) eqn:E.
  - right. apply extAt_true in E. destruct E as (e & -> & Hne & He).
    exists [], e. repeat split; auto using isExtChar_not_dot.
  - destruct IH as [-> | (p & e & -> & Hne & Hd & ->)]; [left; reflexivity|].
    right. exists (c :: p), e. repeat split; auto.
Qed.

Lemma fileMatches_iff (dividerName fileName : jsstring) :
  fileMatches dividerName fileName = true <->
  fileName = dividerName
  \/ withoutExt fileName = withoutExt dividerName
  \/ fileName = withoutExt dividerName
  \/ withoutExt fileName = dividerName.
Proof.
  unfold fileMatches. rewrite !orb_true_iff, !strictEq_iff. tauto.
Qed.

(** ** Matching *)

(** C1 (file matching).  A file record matches a file name exactly when one
    of the four tests holds: the two names are equal; they are equal once
    both have lost their extension; the file name is the record name without
    its extension; the file name without its extension is the record name.
    An untagged file row receives the record's [data-item] exactly in that
    case, the file name being the trimmed text of its title.  Removing the
    extension leaves a name without a dot unchanged, cuts a final dot with
    the non-empty run (free of dot and slash) that follows it, only ever
    cuts at the last dot, and is not repeated.  A record [todo.md] matches
    the file [todo], and a record [todo] the file [todo.md]. *)
Theorem C1_file_matching :
  (forall dividerName fileName,
     fileMatches dividerName fileName = true <->
     dividerName = fileName
     \/ withoutExt dividerName = withoutExt fileName
     \/ fileName = withoutExt dividerName
     \/ withoutExt fileName = dividerName)
  /\ (forall name pos sty text,
        data_item (tagWith (mkDivider name file pos sty)
                           (freshRow nav_file text)) = Some name
        <-> fileMatches name (trim text) = true)
  /\ (forall s, ~ In dot s -> withoutExt s = s)
  /\ (forall p e, e <> [] -> forallb isExtChar e = true ->
        withoutExt (p ++ dot :: e) = p)
  /\ (forall s, withoutExt s = s \/
        exists p e, s = p ++ dot :: e /\ ~ In dot e /\ withoutExt s = p)
  /\ withoutExt (js "archive.tar.gz") = js "archive.tar"
  /\ fileMatches (js "todo.md") (js "todo") = true
  /\ fileMatches (js "todo") (js "todo.md") = true.
Proof.
  split; [|split; [|split; [|split; [|split; [|repeat split]]]]].
  - intros d f. rewrite fileMatches_iff. intuition congruence.
  - intros name pos sty text. unfold tagWith; cbn.
    destruct (fileMatches name (trim text)); cbn; split;
      try reflexivity; discriminate.
  - exact withoutExt_no_dot.
  - exact withoutExt_strips.
  - intros s. destruct (withoutExt_cases s) as [H | (p & e & H1 & _ & H2 & H3)];
      [left; exact H | right; exists p, e; auto].
Qed.

Lemma C1_file_matching_witness :
  withoutExt (js "todo") = js "todo"
  /\ withoutExt (js "todo" ++ dot :: js "md") = js "todo"
  /\ withoutExt (js "a.b" ++ dot :: js "c") = js "a.b"
  /\ fileMatches (js "todo.md") (js "todo") = true
  /\ fileMatches (js "todo") (js "todo.md") = true
  /\ fileMatches (js "todo.md") (js "todo.txt") = true
  /\ fileMatches (js "todo.md") (js "todos") = false.
Proof.
  destruct C1_file_matching as (H1 & _ & H3 & H4 & _ & _ & H7 & H8).
  split; [apply H3; cbn; intuition discriminate|].
  split; [apply H4; [discriminate | reflexivity]|].
  split; [apply H4; [discriminate | reflexivity]|].
  split; [exact H7|]. split; [exact H8|].
  split; [apply H1; right; left; reflexivity | reflexivity].
Defined.

(** C8 (folder matching).  A folder record matches a folder name exactly
    when the two are the same string; no extension is removed on either
    side.  An untagged folder row receives the record's [data-item] exactly
    in that case, the folder name being the trimmed text of its title.  A
    record for [Animals] does not match the folder [Animals2]. *)
Theorem C8_folder_matching :
  (forall dividerName folderName,
     folderMatches dividerName folderName = true <-> dividerName = folderName)
  /\ (forall name pos sty text,
        data_item (tagWith (mkDivider name folder pos sty)
                           (freshRow nav_folder text)) = Some name
        <-> name = trim text)
  /\ folderMatches (js "Animals") (js "Animals2") = false
  /\ folderMatches (js "notes.v1") (js "notes") = false
  /\ folderMatches (js "notes") (js "notes.v1") = false.
Proof.
  assert (H : forall d f, folderMatches d f = true <-> d = f).
  { intros d f. unfold folderMatches. rewrite strictEq_iff.
    split; congruence. }
  split; [exact H | split; [|repeat split]].
  intros name pos sty text. rewrite <- H. unfold tagWith; cbn.
  destruct (folderMatches name (trim text)); cbn; split;
    try reflexivity; discriminate.
Qed.

(** C10 (symmetry of file matching).  Exchanging the record name and the
    file name does not change the outcome of the four tests. *)
Theorem C10_file_matching_symmetric (a b : jsstring) :
  fileMatches a b = fileMatches b a.
Proof.
  apply eq_true_iff_eq. rewrite !fileMatches_iff.
  intuition congruence.
Qed.

(** ** The store *)

Lemma sameItemAt_iff name type pos d :
  sameItemAt name type pos d = true <-> key d = (name, type, pos).
Proof.
  unfold sameItemAt, key. rewrite !andb_true_iff, strictEq_iff.
  destruct d as [n t p st]; cbn.
  destruct t, type, p, pos; cbn; split;
    try (intros [[-> _] _]; reflexivity);
    try (intros [= ->]; auto);
    try (intros [[_ H] H']; discriminate);
    try discriminate.
Qed.

Lemma find_sameItemAt_None name type pos ds :
  find (sameItemAt name type pos) ds = None <->
  ~ In (name, type, pos) (map key ds).
Proof.
  induction ds as [|d ds IH]; cbn; [tauto|].
  destruct (sameItemAt name type pos d) eqn:E.
  - apply sameItemAt_iff in E. split; [discriminate | intros H; tauto].
  - rewrite IH. split; [|tauto].
    intros H [Hk | Hin]; [|tauto].
    apply sameItemAt_iff in Hk. congruence.
Qed.

Lemma existsb_sameItemAt name type pos ds :
  existsb (sameItemAt name type pos) ds = true <->
  In (name, type, pos) (map key ds).
Proof.
  rewrite existsb_exists, in_map_iff. split.
  - intros (d & Hin & H). exists d. apply sameItemAt_iff in H. auto.
  - intros (d & H & Hin). exists d. apply sameItemAt_iff in H. auto.
Qed.

(** [filter] shortens a list exactly when it drops something. *)
Lemma filter_shorter {A : Type} (f : A -> bool) (l : list A) :
  (length (filter (fun x => negb (f x)) l) <? length l)%nat = existsb f l.
Proof.
  induction l as [|x l IH]; [reflexivity|].
  pose proof (filter_length_le (fun x => negb (f x)) l) as Hle.
  cbn [filter existsb]. destruct (f x); cbn [negb orb length].
  - apply Nat.ltb_lt. lia.
  - rewrite <- IH. reflexivity.
Qed.

Lemma NoDup_key_filter (f : Divider -> bool) ds :
  NoDup (map key ds) -> NoDup (map key (filter f ds)).
Proof.
  induction ds as [|d ds IH]; cbn; [auto|].
  intros H. inversion H as [|? ? Hn Hd]; subst.
  destruct (f d); cbn; auto.
  constructor; auto.
  rewrite in_map_iff in *. intros (x & Hx & Hin). apply Hn.
  exists x. split; [exact Hx|]. apply filter_In in Hin. tauto.
Qed.

Lemma NoDup_key_snoc ds d :
  NoDup (map key ds) -> ~ In (key d) (map key ds) ->
  NoDup (map key (ds ++ [d])).
Proof.
  intros Hd Hn. rewrite map_app. cbn.
  apply NoDup_app; [exact Hd | repeat constructor; cbn; tauto |].
  intros x Hx [<- | []]. exact (Hn Hx).
Qed.

(** What [saveSettings] does, field by field. *)
Lemma saveSettings_eq (w : World) :
  saveSettings w =
  mkWorld (settings w)
          (if enabled (settings w)
           then Dom.applyDividers (settings w) (document w)
           else Dom.removeDividers (document w))
          (notices w)
          (savedData w ++ [settings w]).
Proof.
  unfold saveSettings, andThen, saveData, applyDividers, removeDividers,
    setDocument. cbn. destruct (enabled (settings w)); reflexivity.
Qed.

Lemma addDividerToItem_eq name type pos w :
  addDividerToItem name type pos w =
  if existsb (sameItemAt name type pos) (dividers (settings w))
  then Notice (alreadyExistsNotice name type pos) w
  else Notice (addedNotice name type pos)
         (saveSettings
            (setSettings
               (fun s => setDividers
                           (dividers s ++ [mkDivider name type pos line]) s)
               w)).
Proof.
  unfold addDividerToItem.
  destruct (find _ _) as [d|] eqn:E.
  - apply find_some in E. destruct E as [Hin Hd].
    replace (existsb _ _) with true; [reflexivity|].
    symmetry. apply existsb_exists. eauto.
  - replace (existsb _ _) with false; [reflexivity|].
    symmetry. apply not_true_is_false. rewrite existsb_exists.
    intros (d & Hin & Hd). eapply find_none in E; eauto. congruence.
Qed.

Lemma removeDividerFromItem_eq name type pos w :
  removeDividerFromItem name type pos w =
  let w' := setSettings
              (fun s => setDividers
                          (filter (fun d => negb (sameItemAt name type pos d))
                                  (dividers s)) s) w in
  if existsb (sameItemAt name type pos) (dividers (settings w))
  then Notice (removedNotice name type pos) (saveSettings w')
  else w'.
Proof.
  unfold removeDividerFromItem, setSettings.
  cbn [settings dividers setDividers]. rewrite filter_shorter. reflexivity.
Qed.

Lemma removeDividersFromItem_eq name type w :
  removeDividersFromItem name type w =
  let kept := filter (fun d => negb (sameItem name type d))
                     (dividers (settings w)) in
  let w' := setSettings (setDividers kept) w in
  if existsb (sameItem name type) (dividers (settings w))
  then Notice (removedCountNotice
                 (length (dividers (settings w)) - length kept) name type)
              (saveSettings w')
  else w'.
Proof.
  unfold removeDividersFromItem, setSettings.
  cbn [settings dividers setDividers]. rewrite filter_shorter. reflexivity.
Qed.

Lemma dividers_perform_NoDup c w :
  NoDup (map key (dividers (settings w))) ->
  NoDup (map key (dividers (settings (perform c w)))).
Proof.
  intros H. destruct c as [n t p | n t p | n t | | |]; cbn [perform].
  - rewrite addDividerToItem_eq.
    destruct (existsb _ _) eqn:E; [exact H|].
    unfold Notice. cbn [settings]. rewrite saveSettings_eq. cbn.
    apply NoDup_key_snoc; [exact H|]. unfold key at 1. cbn [itemName itemType position].
    rewrite <- existsb_sameItemAt. congruence.
  - rewrite removeDividerFromItem_eq. cbn zeta.
    destruct (existsb _ _); unfold Notice; cbn [settings];
      [rewrite saveSettings_eq|]; cbn; apply NoDup_key_filter, H.
  - rewrite removeDividersFromItem_eq. cbn zeta.
    destruct (existsb _ _); unfold Notice; cbn [settings];
      [rewrite saveSettings_eq|]; cbn; apply NoDup_key_filter, H.
  - unfold clearAllDividers.
    destruct (_ =? _)%nat; unfold andThen, Notice; cbn [settings];
      [exact H | rewrite saveSettings_eq; cbn; constructor].
  - unfold toggleDividers, andThen, Notice. cbn [settings].
    rewrite saveSettings_eq. cbn. exact H.
  - unfold applyIfEnabled. destruct (enabled _); exact H.
Qed.

Lemma dividers_run_NoDup cs w :
  NoDup (map key (dividers (settings w))) ->
  NoDup (map key (dividers (settings (run cs w)))).
Proof.
  revert w. induction cs as [|c cs IH]; intros w H; [exact H|].
  apply IH, dividers_perform_NoDup, H.
Qed.

Lemma filter_none_matching {A : Type} (f : A -> bool) (l : list A) :
  existsb f l = false -> filter (fun x => negb (f x)) l = l.
Proof.
  induction l as [|x l IH]; cbn; [reflexivity|].
  destruct (f x); cbn; [discriminate|]. intros H. f_equal. auto.
Qed.

Lemma setDividers_same (w : World) :
  setSettings (fun s => setDividers (dividers s) s) w = w.
Proof. destruct w as [[ds c t e] doc ns sv]. reflexivity. Qed.

Lemma keys_after_adds adds w k :
  In k (map key (dividers (settings (run (map addCommand adds) w)))) <->
  In k (map key (dividers (settings w))) \/ In k adds.
Proof.
  revert w. induction adds as [|[[n t] p] adds IH]; intros w.
  - cbn. tauto.
  - cbn [map run fold_left]. fold (run (map addCommand adds)).
    rewrite IH. cbn [addCommand perform In]. rewrite addDividerToItem_eq.
    destruct (existsb _ _) eqn:E.
    + apply existsb_sameItemAt in E. unfold Notice; cbn [settings].
      split; [tauto|]. intros [H | [<- | H]]; auto.
    + unfold Notice; cbn [settings]. rewrite saveSettings_eq.
      cbn [settings setSettings setDividers dividers].
      rewrite map_app, in_app_iff. cbn. tauto.
Qed.

Lemma unique_match_removed name type pos ds :
  NoDup (map key ds) ->
  existsb (sameItemAt name type pos) ds = true ->
  length ds =
  S (length (filter (fun d => negb (sameItemAt name type pos d)) ds)).
Proof.
  induction ds as [|d ds IH]; cbn [map existsb filter length];
    [discriminate|].
  intros Hd. inversion Hd as [|? ? Hn Hd']; subst.
  destruct (sameItemAt name type pos d) eqn:E; cbn [orb negb].
  - intros _. rewrite filter_none_matching; [reflexivity|].
    apply not_true_is_false. rewrite existsb_sameItemAt.
    apply sameItemAt_iff in E. congruence.
  - intros H. cbn [length]. f_equal. auto.
Qed.

(** C2 (uniqueness under Add).  After any sequence of [addDividerToItem]
    calls on an empty store, no two records share name, type and position,
    and the store holds the triples that were added.  Adding a triple the
    store already holds only shows the notice [Divider already exists ..]:
    the settings (so the number of records), the document and the saved data
    are as before. *)
Theorem C2_add_keeps_records_unique
  (adds : list (jsstring * ItemType * Position)) (w : World)
  (name : jsstring) (type : ItemType) (pos : Position) :
  dividers (settings w) = [] ->
  let w' := run (map addCommand adds) w in
  NoDup (map key (dividers (settings w')))
  /\ (forall k, In k (map key (dividers (settings w'))) <-> In k adds)
  /\ (In (name, type, pos) (map key (dividers (settings w'))) ->
      addDividerToItem name type pos w' =
      mkWorld (settings w') (document w')
              (notices w' ++ [alreadyExistsNotice name type pos])
              (savedData w')).
Proof.
  intros Hempty w'. split; [|split].
  - apply dividers_run_NoDup. rewrite Hempty. constructor.
  - intros k. unfold w'. rewrite keys_after_adds, Hempty. cbn. tauto.
  - intros Hin. rewrite addDividerToItem_eq.
    apply existsb_sameItemAt in Hin. rewrite Hin. reflexivity.
Qed.

Lemma C2_add_twice_witness :
  let w := initialWorld DEFAULT_SETTINGS
             (Some [freshRow nav_folder (js "Animals")]) in
  let w' := run [Add (js "Animals") folder below] w in
  let w'' := addDividerToItem (js "Animals") folder below w' in
  NoDup (map key (dividers (settings w')))
  /\ length (dividers (settings w'')) = 1%nat
  /\ w'' = mkWorld (settings w') (document w')
             [js "Added divider below folder " ++ dquote ++ js "Animals"
                ++ dquote;
              js "Divider already exists below folder " ++ dquote
                ++ js "Animals" ++ dquote]
             (savedData w').
Proof.
  intros w w' w''.
  destruct (C2_add_keeps_records_unique [(js "Animals", folder, below)] w
              (js "Animals") folder below eq_refl) as (H1 & H2 & H3).
  split; [exact H1 | split; [reflexivity|]].
  unfold w''. change w' with (run (map addCommand [(js "Animals", folder, below)]) w).
  rewrite H3; [reflexivity | left; reflexivity].
Defined.

(** C4 (RemoveOne), as the code has it.  When the store holds a record of
    the given name, type and position, [removeDividerFromItem] deletes every
    such record (exactly one when the records are unique), saves the
    settings, applies the dividers if they are enabled and retracts them
    otherwise, and shows the notice [Removed divider ..], which carries no
    count.  When the store holds no such record, nothing at all changes:
    nothing is saved, the document is left alone and no notice is shown. *)
Theorem C4_remove_one (name : jsstring) (type : ItemType) (pos : Position)
  (w : World) :
  let kept := filter (fun d => negb (sameItemAt name type pos d))
                     (dividers (settings w)) in
  let s' := setDividers kept (settings w) in
  (In (name, type, pos) (map key (dividers (settings w))) ->
     removeDividerFromItem name type pos w =
     mkWorld s'
       (if enabled s' then Dom.applyDividers s' (document w)
        else Dom.removeDividers (document w))
       (notices w ++ [removedNotice name type pos])
       (savedData w ++ [s'])
     /\ ~ In (name, type, pos) (map key kept)
     /\ (NoDup (map key (dividers (settings w))) ->
         length (dividers (settings w)) = S (length kept)))
  /\ (~ In (name, type, pos) (map key (dividers (settings w))) ->
      removeDividerFromItem name type pos w = w).
Proof.
  intros kept s'. rewrite removeDividerFromItem_eq. cbn zeta.
  rewrite <- existsb_sameItemAt. split.
  - intros H. rewrite H. split; [|split].
    + unfold Notice. rewrite saveSettings_eq. reflexivity.
    + rewrite in_map_iff. intros (d & Hk & Hin).
      apply filter_In in Hin. destruct Hin as [_ Hf].
      apply sameItemAt_iff in Hk. rewrite Hk in Hf. discriminate.
    + intros Hd. apply unique_match_removed; assumption.
  - intros H. apply not_true_is_false in H. rewrite H.
    unfold setSettings at 1.
    rewrite (filter_none_matching _ _ H).
    exact (setDividers_same w).
Qed.

Lemma C4_remove_one_witness :
  let w := run [Add (js "Animals") folder below]
             (initialWorld DEFAULT_SETTINGS None) in
  dividers (settings (removeDividerFromItem (js "Animals") folder below w))
  = []
  /\ notices (removeDividerFromItem (js "Animals") folder below w)
     = notices w ++ [js "Removed divider below folder " ++ dquote
                       ++ js "Animals" ++ dquote]
  /\ removeDividerFromItem (js "Animals") folder above w = w.
Proof.
  intros w.
  destruct (C4_remove_one (js "Animals") folder below w) as [H _].
  destruct (C4_remove_one (js "Animals") folder above w) as [_ H'].
  assert (Hin : In (js "Animals", folder, below)
                   (map key (dividers (settings w)))) by (left; reflexivity).
  destruct (H Hin) as (-> & _ & _).
  split; [reflexivity | split; [reflexivity|]].
  apply H'. cbn. intros [H0 | []]. discriminate.
Defined.

(** C4, the case without a match: removing a record the store does not
    hold shows no notice at all, so no count is reported to the user. *)
Lemma C4_no_notice_when_absent :
  let w := initialWorld DEFAULT_SETTINGS None in
  let w' := removeDividerFromItem (js "todo.md") file above w in
  notices w' = [] /\ ~ (exists msg, In msg (notices w')).
Proof.
  cbv zeta. split; [reflexivity|]. intros (msg & []).
Qed.

(** C5 (ClearAll).  On a store of [n > 0] records [clearAllDividers] empties
    the list, saves the settings, rebuilds the presentation (which, the list
    being empty, is the retraction, whether dividers are enabled or not) and
    shows [Cleared n divider(s)].  On an empty store it only shows the notice
    [No dividers to clear]: nothing is saved and the document is left
    alone. *)
Theorem C5_clear_all (w : World) :
  (dividers (settings w) <> [] ->
     let s' := setDividers [] (settings w) in
     clearAllDividers w =
     mkWorld s' (Dom.removeDividers (document w))
       (notices w ++ [js "Cleared "
                        ++ numberToString
                             (Z.of_nat (length (dividers (settings w))))
                        ++ js " divider(s)"])
       (savedData w ++ [s'])
     /\ Dom.applyDividers s' (document w) = Dom.removeDividers (document w))
  /\ (dividers (settings w) = [] ->
      clearAllDividers w =
      mkWorld (settings w) (document w)
        (notices w ++ [js "No dividers to clear"]) (savedData w)).
Proof.
  unfold clearAllDividers. split.
  - intros Hne. destruct (dividers (settings w)) as [|d ds] eqn:E;
      [congruence|].
    cbn [length Nat.eqb]. unfold andThen, Notice.
    rewrite saveSettings_eq. cbn [settings setSettings document notices savedData].
    split; [|reflexivity].
    unfold clearedNotice.
    destruct (enabled _); reflexivity.
  - intros ->. reflexivity.
Qed.

Lemma C5_clear_three_witness :
  let w := run [Add (js "Animals") folder below; Add (js "Science") folder above;
                Add (js "todo.md") file above]
             (initialWorld DEFAULT_SETTINGS
                (Some [freshRow nav_folder (js "Animals")])) in
  dividers (settings (clearAllDividers w)) = []
  /\ notices (clearAllDividers w) = notices w ++ [js "Cleared 3 divider(s)"]
  /\ length (savedData (clearAllDividers w)) = S (length (savedData w))
  /\ retracted (document (clearAllDividers w)) = true
  /\ clearAllDividers (clearAllDividers w)
     = Notice (js "No dividers to clear") (clearAllDividers w).
Proof.
  intros w.
  destruct (C5_clear_all w) as [H _].
  assert (Hne : dividers (settings w) <> []) by discriminate.
  destruct (H Hne) as [E _].
  destruct (C5_clear_all (clearAllDividers w)) as [_ H'].
  rewrite H'; rewrite E; repeat split.
Defined.

(** ** The document *)

Lemma untag_consistent (el : Element) :
  consistent el = true -> untag el = bare el.
Proof.
  destruct el as [k t [[] [] [] []] [i|] [ty|]]; cbn;
    try reflexivity; discriminate.
Qed.

Lemma untag_untagged (el : Element) : untagged el = true -> untag el = el.
Proof.
  destruct el as [k t c [i|] ty]; cbn; [|reflexivity].
  unfold untagged; cbn. rewrite andb_false_r. discriminate.
Qed.

Lemma untagged_bare (el : Element) : untagged (bare el) = true.
Proof. reflexivity. Qed.

Lemma bare_untag (el : Element) : bare (untag el) = bare el.
Proof. unfold untag. destruct (data_item el); reflexivity. Qed.

Lemma bare_tagWith (d : Divider) (el : Element) :
  bare (tagWith d el) = bare el.
Proof.
  unfold tagWith.
  destruct (itemType d), (kind el), (title el) as [text|]; try reflexivity.
  - destruct (fileMatches _ _); reflexivity.
  - destruct (folderMatches _ _); reflexivity.
Qed.

Lemma consistent_tagWith (d : Divider) (el : Element) :
  consistent el = true -> consistent (tagWith d el) = true.
Proof.
  intros H. unfold tagWith.
  destruct (itemType d), (kind el), (title el) as [text|]; try exact H.
  - destruct (fileMatches _ _); [reflexivity | exact H].
  - destruct (folderMatches _ _); [reflexivity | exact H].
Qed.

Lemma untagged_consistent (el : Element) :
  untagged el = true -> consistent el = true.
Proof. unfold consistent. intros ->. apply orb_true_r. Qed.

Lemma bare_tagAll ds rows : map bare (tagAll ds rows) = map bare rows.
Proof.
  revert rows. induction ds as [|d ds IH]; intros rows; [reflexivity|].
  cbn. unfold tagAll in IH. rewrite IH, map_map.
  apply map_ext, bare_tagWith.
Qed.

Lemma consistent_tagAll ds rows :
  forallb consistent rows = true ->
  forallb consistent (tagAll ds rows) = true.
Proof.
  revert rows. induction ds as [|d ds IH]; intros rows H; [exact H|].
  cbn. apply IH. rewrite forallb_forall in *.
  intros el Hin. apply in_map_iff in Hin. destruct Hin as (x & <- & Hx).
  apply consistent_tagWith; auto.
Qed.

Lemma map_untag_consistent rows :
  forallb consistent rows = true -> map untag rows = map bare rows.
Proof.
  rewrite forallb_forall. intros H. apply map_ext_in.
  intros el Hin. apply untag_consistent; auto.
Qed.

Lemma map_untag_untagged rows :
  forallb untagged rows = true -> map untag rows = rows.
Proof.
  rewrite forallb_forall. intros H. rewrite <- (map_id rows) at 2.
  apply map_ext_in. intros el Hin. apply untag_untagged; auto.
Qed.

Lemma forallb_untagged_bare rows : forallb untagged (map bare rows) = true.
Proof. induction rows; cbn; auto. Qed.

Lemma short_tl {A : Type} (l : list A) : (length l <=? 1)%nat = true -> tl l = [].
Proof. destruct l as [|x [|y l]]; cbn; auto; discriminate. Qed.

(** On a well-formed document, retracting leaves the bare document. *)
Lemma removeDividers_wellFormed (doc : Document) :
  wellFormed doc = true -> Dom.removeDividers doc = bareDocument doc.
Proof.
  unfold wellFormed, Dom.removeDividers, bareDocument, rowsOf.
  rewrite andb_true_iff. intros [Hs Hr]. rewrite (short_tl _ Hs).
  destruct (fileExplorer doc) as [rows|]; cbn; [|reflexivity].
  rewrite map_untag_consistent; auto.
Qed.

Lemma retracted_bareDocument (doc : Document) :
  retracted (bareDocument doc) = true.
Proof.
  unfold retracted, bareDocument, rowsOf; cbn.
  destruct (fileExplorer doc); cbn; auto using forallb_untagged_bare.
Qed.

Lemma retracted_wellFormed (doc : Document) :
  retracted doc = true -> wellFormed doc = true.
Proof.
  unfold retracted, wellFormed. rewrite !andb_true_iff, Nat.eqb_eq.
  intros [-> H]. split; [reflexivity|].
  rewrite forallb_forall in *. auto using untagged_consistent.
Qed.

(** On a retracted document, retracting changes nothing. *)
Lemma removeDividers_retracted (doc : Document) :
  retracted doc = true -> Dom.removeDividers doc = doc.
Proof.
  unfold retracted, Dom.removeDividers, rowsOf.
  rewrite andb_true_iff, Nat.eqb_eq. intros [Hs Hr].
  destruct doc as [st [rows|]]; cbn in *;
    apply length_zero_iff_nil in Hs; subst; [|reflexivity].
  rewrite map_untag_untagged; auto.
Qed.

Lemma bareDocument_idem (doc : Document) :
  bareDocument (bareDocument doc) = bareDocument doc.
Proof.
  unfold bareDocument; cbn. destruct (fileExplorer doc); cbn; [|reflexivity].
  rewrite map_map. reflexivity.
Qed.

Lemma bareDocument_removeDividers (doc : Document) :
  bareDocument (Dom.removeDividers doc) = bareDocument doc.
Proof.
  unfold bareDocument, Dom.removeDividers; cbn.
  destruct (fileExplorer doc); cbn; [|reflexivity].
  rewrite map_map. do 2 f_equal. apply map_ext, bare_untag.
Qed.

Lemma bareDocument_addDividerClasses s (doc : Document) :
  bareDocument (Dom.addDividerClasses s doc) = bareDocument doc.
Proof.
  unfold bareDocument, Dom.addDividerClasses.
  destruct (fileExplorer doc) as [rows|] eqn:E; cbn; [|rewrite E; reflexivity].
  fold (tagAll (dividers s) (map untag rows)).
  rewrite bare_tagAll, map_map. do 2 f_equal. apply map_ext, bare_untag.
Qed.

Lemma bareDocument_applyDividers s (doc : Document) :
  bareDocument (Dom.applyDividers s doc) = bareDocument doc.
Proof.
  unfold Dom.applyDividers. destruct (_ =? _)%nat.
  - apply bareDocument_removeDividers.
  - rewrite bareDocument_addDividerClasses.
    unfold Dom.appendStyle, bareDocument; cbn.
    destruct (fileExplorer doc); cbn; [|reflexivity].
    rewrite map_map. do 2 f_equal. apply map_ext, bare_untag.
Qed.

Lemma wellFormed_removeDividers (doc : Document) :
  wellFormed doc = true -> wellFormed (Dom.removeDividers doc) = true.
Proof.
  intros H. rewrite removeDividers_wellFormed by exact H.
  apply retracted_wellFormed, retracted_bareDocument.
Qed.

Lemma wellFormed_applyDividers s (doc : Document) :
  wellFormed doc = true -> wellFormed (Dom.applyDividers s doc) = true.
Proof.
  intros H. unfold Dom.applyDividers.
  destruct (_ =? _)%nat; [apply wellFormed_removeDividers, H|].
  rewrite removeDividers_wellFormed by exact H.
  unfold Dom.addDividerClasses, Dom.appendStyle, bareDocument, wellFormed,
    rowsOf; cbn.
  destruct (fileExplorer doc) as [rows|]; cbn; [|reflexivity].
  fold (tagAll (dividers s) (map untag (map bare rows))).
  apply consistent_tagAll.
  rewrite map_untag_untagged by apply forallb_untagged_bare.
  rewrite forallb_forall. intros el Hin.
  apply in_map_iff in Hin. destruct Hin as (x & <- & _). reflexivity.
Qed.

(** What [applyDividers] builds depends on the settings, and on the document
    only through its rows' kinds and titles. *)
Lemma applyDividers_bareDocument s (doc : Document) :
  wellFormed doc = true ->
  Dom.applyDividers s doc = Dom.applyDividers s (bareDocument doc).
Proof.
  intros H. unfold Dom.applyDividers.
  rewrite (removeDividers_wellFormed doc H).
  rewrite (removeDividers_retracted (bareDocument doc))
    by apply retracted_bareDocument.
  reflexivity.
Qed.

Lemma applyDividers_idem s (doc : Document) :
  wellFormed doc = true ->
  Dom.applyDividers s (Dom.applyDividers s doc) = Dom.applyDividers s doc.
Proof.
  intros H.
  rewrite (applyDividers_bareDocument s (Dom.applyDividers s doc))
    by (apply wellFormed_applyDividers, H).
  rewrite bareDocument_applyDividers.
  symmetry. apply applyDividers_bareDocument, H.
Qed.

Lemma applyDividers_enabled_irrelevant b s (doc : Document) :
  Dom.applyDividers (setEnabled b s) doc = Dom.applyDividers s doc.
Proof. reflexivity. Qed.

(** Every command leaves the document well formed. *)
Lemma wellFormed_perform c w :
  wellFormed (document w) = true ->
  wellFormed (document (perform c w)) = true.
Proof.
  intros H.
  assert (Hsave : forall w0, wellFormed (document w0) = true ->
                    wellFormed (document (saveSettings w0)) = true).
  { intros w0 H0. rewrite saveSettings_eq. cbn [document].
    destruct (enabled _);
      auto using wellFormed_applyDividers, wellFormed_removeDividers. }
  destruct c as [n t p | n t p | n t | | |]; cbn [perform].
  - rewrite addDividerToItem_eq.
    destruct (existsb _ _); unfold Notice; cbn [document]; auto.
  - rewrite removeDividerFromItem_eq. cbn zeta.
    destruct (existsb _ _); unfold Notice; cbn [document]; auto.
  - rewrite removeDividersFromItem_eq. cbn zeta.
    destruct (existsb _ _); unfold Notice; cbn [document]; auto.
  - unfold clearAllDividers.
    destruct (_ =? _)%nat; unfold andThen, Notice; cbn [document]; auto.
  - unfold toggleDividers, andThen, Notice. cbn [document]. auto.
  - unfold applyIfEnabled. destruct (enabled _); [|exact H].
    unfold applyDividers, setDocument. cbn [document].
    apply wellFormed_applyDividers, H.
Qed.

Lemma wellFormed_run cs w :
  wellFormed (document w) = true ->
  wellFormed (document (run cs w)) = true.
Proof.
  revert w. induction cs as [|c cs IH]; intros w H; [exact H|].
  apply IH, wellFormed_perform, H.
Qed.

Lemma removeDividers_eq (w : World) :
  removeDividers w =
  mkWorld (settings w) (Dom.removeDividers (document w)) (notices w)
          (savedData w).
Proof. reflexivity. Qed.

Lemma applyDividers_eq (w : World) :
  applyDividers w =
  mkWorld (settings w) (Dom.applyDividers (settings w) (document w))
          (notices w) (savedData w).
Proof. reflexivity. Qed.

(** C9 (Retract).  On a document as the plugin leaves it, [removeDividers]
    removes the style element and every class and attribute the plugin set:
    what remains is the rows with their kinds and titles; settings, notices
    and saved data are not touched.  Retracting once more changes nothing,
    and retracting a document that carries no trace of the plugin (nothing
    was ever applied) changes nothing either.  The function is total: there
    is no failing case. *)
Theorem C9_retract (w : World) :
  wellFormed (document w) = true ->
  let w' := removeDividers w in
  retracted (document w') = true
  /\ w' = mkWorld (settings w) (bareDocument (document w)) (notices w)
            (savedData w)
  /\ removeDividers w' = w'
  /\ (retracted (document w) = true -> w' = w).
Proof.
  intros H w'. unfold w'. rewrite !removeDividers_eq. cbn [document settings notices savedData].
  rewrite (removeDividers_wellFormed _ H).
  repeat split.
  - apply retracted_bareDocument.
  - rewrite removeDividers_retracted by apply retracted_bareDocument.
    reflexivity.
  - intros Hr. rewrite <- (removeDividers_wellFormed _ H).
    rewrite (removeDividers_retracted _ Hr). destruct w; reflexivity.
Qed.

Lemma C9_retract_witness :
  let w0 := initialWorld DEFAULT_SETTINGS
              (Some [freshRow nav_folder (js "Animals");
                     freshRow nav_file (js "todo")]) in
  let w := run [Add (js "Animals") folder below; Add (js "todo.md") file above]
             w0 in
  retracted (document w) = false
  /\ document (removeDividers w) = document w0
  /\ removeDividers (removeDividers w) = removeDividers w
  /\ removeDividers w0 = w0.
Proof.
  intros w0 w.
  assert (Hw0 : wellFormed (document w0) = true) by reflexivity.
  pose proof (wellFormed_run
                [Add (js "Animals") folder below; Add (js "todo.md") file above]
                w0 Hw0) as Hw.
  destruct (C9_retract w Hw) as (_ & H2 & H3 & _).
  destruct (C9_retract w0 Hw0) as (_ & _ & _ & H4).
  split; [reflexivity | split; [|split]].
  - rewrite H2. reflexivity.
  - exact H3.
  - apply H4. reflexivity.
Defined.

(** C6 (Apply).  [applyDividers] first retracts: on a document as the plugin
    leaves it, whatever was emitted before is gone, and the result is built
    from the bare rows alone.  With no record it stops there, leaving the
    retracted document, without a style element.  Applying a second time,
    with the same settings and rows, gives the same document as applying
    once: the same style element and the same tags. *)
Theorem C6_apply (w : World) :
  wellFormed (document w) = true ->
  let s := settings w in
  let r := Dom.removeDividers (document w) in
  retracted r = true
  /\ document (applyDividers w) =
     (if (length (dividers s) =? 0)%nat then r
      else Dom.addDividerClasses s (Dom.appendStyle (cssRules s) r))
  /\ document (applyDividers w) = Dom.applyDividers s (bareDocument (document w))
  /\ (dividers s = [] ->
      document (applyDividers w) = r
      /\ styleElements (document (applyDividers w)) = [])
  /\ applyDividers (applyDividers w) = applyDividers w.
Proof.
  intros H s r. unfold r, s. rewrite !applyDividers_eq.
  cbn [document settings notices savedData].
  split; [|split; [|split; [|split]]].
  - rewrite (removeDividers_wellFormed _ H). apply retracted_bareDocument.
  - reflexivity.
  - apply applyDividers_bareDocument, H.
  - intros E. unfold Dom.applyDividers. rewrite E. cbn [length Nat.eqb].
    split; [reflexivity|].
    rewrite (removeDividers_wellFormed _ H). reflexivity.
  - rewrite applyDividers_idem by exact H. reflexivity.
Qed.

Lemma C6_apply_witness :
  let s := mkSettings [mkDivider (js "Animals") folder below line]
             (js "#484848") 1 true in
  let w := initialWorld s (Some [freshRow nav_folder (js "Animals");
                                 freshRow nav_folder (js "Animals2")]) in
  applyDividers (applyDividers w) = applyDividers w
  /\ fileExplorer (document (applyDividers w)) =
     Some [tag (mkDivider (js "Animals") folder below line)
             (freshRow nav_folder (js "Animals"));
           freshRow nav_folder (js "Animals2")]
  /\ styleElements (document (applyDividers w)) = [cssRules s]
  /\ retracted (document
       (applyDividers (initialWorld DEFAULT_SETTINGS (fileExplorer (document w)))))
     = true.
Proof.
  intros s w.
  assert (Hw : wellFormed (document w) = true) by reflexivity.
  destruct (C6_apply w Hw) as (_ & _ & _ & _ & H).
  split; [exact H | repeat split].
Defined.

Lemma setEnabled_twice (s : FilesDividersSettings) :
  setEnabled (negb (enabled (setEnabled (negb (enabled s)) s)))
             (setEnabled (negb (enabled s)) s) = s.
Proof. destruct s as [ds c t []]; reflexivity. Qed.

Lemma toggleDividers_eq (w : World) :
  toggleDividers w =
  let s' := setEnabled (negb (enabled (settings w))) (settings w) in
  mkWorld s'
    (if enabled s' then Dom.applyDividers s' (document w)
     else Dom.removeDividers (document w))
    (notices w ++ [js "Files dividers "
                     ++ (if enabled s' then js "enabled" else js "disabled")])
    (savedData w ++ [s']).
Proof.
  unfold toggleDividers, andThen, Notice. rewrite saveSettings_eq.
  reflexivity.
Qed.

(** C7 (Toggle).  [toggleDividers] flips [enabled], saves the settings,
    applies the dividers when they are now enabled and retracts them when
    they are now disabled, and shows [Files dividers enabled] or
    [Files dividers disabled].  From the enabled state, one toggle leaves a
    document without style element and without tagged row; a second toggle
    restores the settings and builds what [applyDividers] builds from them:
    if the document was an applied one before, it is that document again. *)
Theorem C7_toggle (w : World) :
  wellFormed (document w) = true ->
  let s' := setEnabled (negb (enabled (settings w))) (settings w) in
  toggleDividers w =
    mkWorld s'
      (if enabled s' then Dom.applyDividers (settings w) (document w)
       else Dom.removeDividers (document w))
      (notices w ++ [js "Files dividers "
                       ++ (if enabled s' then js "enabled" else js "disabled")])
      (savedData w ++ [s'])
  /\ (enabled (settings w) = true ->
      retracted (document (toggleDividers w)) = true
      /\ settings (toggleDividers (toggleDividers w)) = settings w
      /\ document (toggleDividers (toggleDividers w)) =
         Dom.applyDividers (settings w) (document w)
      /\ (forall doc0, wellFormed doc0 = true ->
            document w = Dom.applyDividers (settings w) doc0 ->
            document (toggleDividers (toggleDividers w)) = document w)).
Proof.
  intros H s'. split; [apply toggleDividers_eq|].
  intros He.
  assert (Hdoc : document (toggleDividers (toggleDividers w)) =
                 Dom.applyDividers (settings w) (document w)).
  { rewrite !toggleDividers_eq. cbn [settings document enabled setEnabled].
    rewrite He. cbn [negb].
    change (Dom.applyDividers _ ?d) with (Dom.applyDividers (settings w) d).
    rewrite (removeDividers_wellFormed _ H).
    symmetry. apply applyDividers_bareDocument, H. }
  split; [|split; [|split]].
  - rewrite toggleDividers_eq. cbn [settings document enabled setEnabled].
    rewrite He. cbn [negb]. rewrite (removeDividers_wellFormed _ H).
    apply retracted_bareDocument.
  - rewrite !toggleDividers_eq. cbn [settings]. apply setEnabled_twice.
  - exact Hdoc.
  - intros doc0 H0 E. rewrite Hdoc. rewrite E at 1.
    rewrite applyDividers_idem by exact H0. symmetry. exact E.
Qed.

Lemma C7_toggle_witness :
  let s := mkSettings [mkDivider (js "Animals") folder below line;
                       mkDivider (js "todo.md") file above line]
             (js "#484848") 1 true in
  let rows := [freshRow nav_folder (js "Animals"); freshRow nav_file (js "todo")] in
  let w := applyDividers (initialWorld s (Some rows)) in
  retracted (document w) = false
  /\ document (toggleDividers w) = mkDocument [] (Some rows)
  /\ notices (toggleDividers w) = [js "Files dividers disabled"]
  /\ document (toggleDividers (toggleDividers w)) = document w
  /\ settings (toggleDividers (toggleDividers w)) = s.
Proof.
  intros s rows w.
  assert (Hw : wellFormed (document w) = true) by reflexivity.
  destruct (C7_toggle w Hw) as (H1 & H2).
  destruct (H2 eq_refl) as (_ & H3 & _ & H4).
  split; [reflexivity | split; [rewrite H1; reflexivity | split;
    [rewrite H1; reflexivity | split]]].
  - apply (H4 (document (initialWorld s (Some rows)))); reflexivity.
  - exact H3.
Defined.

(** ** The style sheet *)

Lemma styleElements_addDividerClasses s (doc : Document) :
  styleElements (Dom.addDividerClasses s doc) = styleElements doc.
Proof.
  unfold Dom.addDividerClasses. destruct (fileExplorer doc); reflexivity.
Qed.

(** With at least one record, the document holds exactly one style element
    after [applyDividers]: the rules of the records, joined by line
    breaks. *)
Lemma styleElements_applyDividers s (doc : Document) :
  wellFormed doc = true -> dividers s <> [] ->
  styleElements (Dom.applyDividers s doc) = [cssRules s].
Proof.
  intros H Hne. unfold Dom.applyDividers.
  destruct (dividers s) as [|d ds] eqn:E; [congruence|].
  cbn [length Nat.eqb]. rewrite styleElements_addDividerClasses.
  rewrite (removeDividers_wellFormed _ H). reflexivity.
Qed.

Lemma thickness_cases (t : Z) :
  (1 <= t <= 5)%Z -> (t = 1 \/ t = 2 \/ t = 3 \/ t = 4 \/ t = 5)%Z.
Proof. lia. Qed.

Lemma join_cons (sep y : jsstring) (l : list jsstring) :
  join sep (y :: l) = y ++ concat (map (fun r => sep ++ r) l).
Proof.
  revert y. induction l as [|z l IH]; intros y.
  - cbn. symmetry. apply app_nil_r.
  - change (join sep (y :: z :: l)) with (y ++ sep ++ join sep (z :: l)).
    rewrite (IH z). cbn [map concat]. rewrite <- app_assoc. reflexivity.
Qed.

(** The joined text around one of its elements: what comes before is the
    earlier elements, each followed by the separator; what comes after is
    the later ones, each preceded by it. *)
Lemma join_at (sep : jsstring) (l : list jsstring) (i : nat) (x : jsstring) :
  nth_error l i = Some x ->
  join sep l
  = concat (map (fun r => r ++ sep) (firstn i l)) ++ x
    ++ concat (map (fun r => sep ++ r) (skipn (S i) l)).
Proof.
  revert i. induction l as [|y l IH]; intros i H; [destruct i; discriminate|].
  destruct i as [|i].
  - injection H as <-. apply join_cons.
  - cbn [nth_error] in H.
    change (skipn (S (S i)) (y :: l)) with (skipn (S i) l).
    cbn [firstn map concat].
    rewrite <- (app_assoc (y ++ sep)), <- (IH i H).
    destruct l as [|z l]; [destruct i; discriminate|].
    rewrite <- app_assoc. reflexivity.
Qed.

Lemma join_snoc (sep x : jsstring) (l : list jsstring) :
  join sep (l ++ [x]) = concat (map (fun r => r ++ sep) l) ++ x.
Proof.
  rewrite (join_at sep (l ++ [x]) (length l) x).
  - rewrite firstn_app, firstn_all, Nat.sub_diag. cbn [firstn].
    rewrite app_nil_r, skipn_all2 by (rewrite length_app; cbn; lia).
    cbn. rewrite app_nil_r. reflexivity.
  - rewrite nth_error_app2, Nat.sub_diag by lia. reflexivity.
Qed.

(** C3 (geometry of a rule).  For a thickness [t] from 1 to 5 and any
    color [c], [applyDividers] leaves one style element, whose text is the
    rules of the records in their order, one rule per record, separated by
    line breaks: the rule of the record at position [i] stands after the
    [i] earlier rules and before the later ones.  The rule of a record is
    the text of two blocks, given here in full.  The block of the
    pseudo-element declares the height [t]px, the background color [c], the
    border radius [t/2]px, and on the record's edge ([top] for above,
    [bottom] for below) the offset -[8 + t]px; the block of the row declares
    a margin of 16px on that same edge. *)
Theorem C3_rule_geometry (s : FilesDividersSettings) (d : Divider) (i : nat)
  (doc : Document) :
  (1 <= dividerThickness s <= 5)%Z ->
  nth_error (dividers s) i = Some d ->
  wellFormed doc = true ->
  let t := dividerThickness s in
  let rules := map (cssRule s) (dividers s) in
  let segment := segmentDeclarations s d in
  let spacing := spacingDeclarations d in
  styleElements (Dom.applyDividers s doc)
  = [concat (map (fun r => r ++ [10]) (firstn i rules))
     ++ cssRule s d
     ++ concat (map (fun r => [10] ++ r) (skipn (S i) rules))]
  /\ (exists h r o,
       In (t, h, r, o)
          [(1, js "1", js "0.5", js "9"); (2, js "2", js "1", js "10");
           (3, js "3", js "1.5", js "11"); (4, js "4", js "2", js "12");
           (5, js "5", js "2.5", js "13")]%Z
       /\ cssRule s d =
       let cls := match itemType d with
                  | folder => js "nav-folder" | file => js "nav-file" end in
       let type := match itemType d with
                   | folder => js "folder" | file => js "file" end in
       let pos := match position d with
                  | above => js "above" | below => js "below" end in
       let pseudo := match position d with
                     | above => js "before" | below => js "after" end in
       let side := match position d with
                   | above => js "top" | below => js "bottom" end in
       let sel := js "." ++ cls ++ js "-divider-" ++ pos
                  ++ js "[data-item=" ++ [34] ++ itemName d ++ [34]
                  ++ js "][data-type=" ++ [34] ++ type ++ [34] ++ js "]" in
       let line n text := repeat 32 n ++ text ++ [10] in
       [10]
       ++ line 16%nat (js "/* --- Divider styles for files and folders --- */")
       ++ line 16%nat (sel ++ js "::" ++ pseudo ++ js " {")
       ++ line 20%nat (js "content: '';")
       ++ line 20%nat (js "position: absolute;")
       ++ line 20%nat (js "left: 0;")
       ++ line 20%nat (js "right: 0;")
       ++ line 20%nat (js "width: 100%;")
       ++ line 20%nat (js "height: " ++ h ++ js "px;")
       ++ line 20%nat (js "background-color: " ++ dividerColor s ++ js ";")
       ++ line 20%nat (js "border-radius: " ++ r ++ js "px;")
       ++ line 20%nat (js "opacity: 0.6;")
       ++ line 20%nat (side ++ js ": -" ++ o ++ js "px;")
       ++ line 16%nat (js "}")
       ++ [10]
       ++ line 16%nat (js "/* --- Add spacing and position to dividers --- */")
       ++ line 16%nat (sel ++ js " {")
       ++ line 20%nat (js "position: relative;")
       ++ line 20%nat (js "margin-" ++ side ++ js ": 16px;")
       ++ line 16%nat (js "}")
       ++ repeat 32 12)
  /\ styleElements (Dom.applyDividers s doc) = [join nl rules]
  /\ length rules = length (dividers s)
  /\ nth_error rules i = Some (cssRule s d)
  /\ cssRule s d =
       nl ++ indent 16
       ++ js "/* --- Divider styles for files and folders --- */" ++ nl
       ++ ruleBlock (selector d ++ js "::" ++ pseudoElement d) segment
       ++ nl ++ indent 16
       ++ js "/* --- Add spacing and position to dividers --- */" ++ nl
       ++ ruleBlock (selector d) spacing ++ indent 12
  /\ valueOf (js "height") segment = Some (numberToString t ++ js "px")
  /\ valueOf (js "background-color") segment = Some (dividerColor s)
  /\ valueOf (js "border-radius") segment = Some (halfToString t ++ js "px")
  /\ valueOf (edge d) segment
     = Some (js "-" ++ numberToString (8 + t) ++ js "px")
  /\ valueOf (js "margin-" ++ edge d) spacing = Some (js "16px")
  /\ edge d = match position d with above => js "top" | below => js "bottom" end
  /\ In (t, numberToString t, halfToString t, numberToString (8 + t))
        [(1, js "1", js "0.5", js "9"); (2, js "2", js "1", js "10");
         (3, js "3", js "1.5", js "11"); (4, js "4", js "2", js "12");
         (5, js "5", js "2.5", js "13")]%Z.
Proof.
  intros Ht Hd Hwf t rules segment spacing.
  assert (Hne : dividers s <> []).
  { intros E. rewrite E in Hd. destruct i; discriminate. }
  assert (Hr : nth_error rules i = Some (cssRule s d))
    by (unfold rules; rewrite nth_error_map, Hd; reflexivity).
  assert (Hst : styleElements (Dom.applyDividers s doc) = [join nl rules])
    by (apply styleElements_applyDividers; assumption).
  split; [rewrite Hst, (join_at nl rules i _ Hr); reflexivity|].
  split.
  { subst t.
    destruct (thickness_cases _ Ht) as [E | [E | [E | [E | E]]]];
      [exists (js "1"), (js "0.5"), (js "9")
      |exists (js "2"), (js "1"), (js "10")
      |exists (js "3"), (js "1.5"), (js "11")
      |exists (js "4"), (js "2"), (js "12")
      |exists (js "5"), (js "2.5"), (js "13")];
      (split; [rewrite E; cbn; tauto|]);
      unfold cssRule, ruleBlock, segmentDeclarations, spacingDeclarations,
        declaration, selector, itemClass, pseudoElement, edge, Position_str,
        ItemType_str, dquote, nl, indent;
      rewrite E; cbv zeta; cbn [map concat fst snd];
      repeat rewrite <- app_assoc; reflexivity. }
  split; [exact Hst|].
  split; [apply length_map|].
  split; [exact Hr|].
  split; [reflexivity|].
  unfold segment, spacing, segmentDeclarations, spacingDeclarations, edge.
  repeat split; try (destruct (position d); reflexivity).
  subst t. destruct (thickness_cases _ Ht) as [E | [E | [E | [E | E]]]];
    rewrite E; cbn; tauto.
Qed.

Lemma C3_rule_geometry_witness :
  let d1 := mkDivider (js "Science") folder above line in
  let d2 := mkDivider (js "todo.md") file below line in
  let s := mkSettings [d1; d2] (js "#ff0000") 3 true in
  let doc := mkDocument [] (Some [freshRow nav_folder (js "Science")]) in
  let rule1 :=
    concat
      [[10];
       js "                /* --- Divider styles for files and folders --- */"; [10];
       js "                .nav-folder-divider-above[data-item="; [34];
       js "Science"; [34]; js "][data-type="; [34]; js "folder"; [34];
       js "]::before {"; [10];
       js "                    content: '';"; [10];
       js "                    position: absolute;"; [10];
       js "                    left: 0;"; [10];
       js "                    right: 0;"; [10];
       js "                    width: 100%;"; [10];
       js "                    height: 3px;"; [10];
       js "                    background-color: #ff0000;"; [10];
       js "                    border-radius: 1.5px;"; [10];
       js "                    opacity: 0.6;"; [10];
       js "                    top: -11px;"; [10];
       js "                }"; [10];
       [10];
       js "                /* --- Add spacing and position to dividers --- */"; [10];
       js "                .nav-folder-divider-above[data-item="; [34];
       js "Science"; [34]; js "][data-type="; [34]; js "folder"; [34];
       js "] {"; [10];
       js "                    position: relative;"; [10];
       js "                    margin-top: 16px;"; [10];
       js "                }"; [10];
       js "            "] in
  let rule2 :=
    concat
      [[10];
       js "                /* --- Divider styles for files and folders --- */"; [10];
       js "                .nav-file-divider-below[data-item="; [34];
       js "todo.md"; [34]; js "][data-type="; [34]; js "file"; [34];
       js "]::after {"; [10];
       js "                    content: '';"; [10];
       js "                    position: absolute;"; [10];
       js "                    left: 0;"; [10];
       js "                    right: 0;"; [10];
       js "                    width: 100%;"; [10];
       js "                    height: 3px;"; [10];
       js "                    background-color: #ff0000;"; [10];
       js "                    border-radius: 1.5px;"; [10];
       js "                    opacity: 0.6;"; [10];
       js "                    bottom: -11px;"; [10];
       js "                }"; [10];
       [10];
       js "                /* --- Add spacing and position to dividers --- */"; [10];
       js "                .nav-file-divider-below[data-item="; [34];
       js "todo.md"; [34]; js "][data-type="; [34]; js "file"; [34];
       js "] {"; [10];
       js "                    position: relative;"; [10];
       js "                    margin-bottom: 16px;"; [10];
       js "                }"; [10];
       js "            "] in
  styleElements (Dom.applyDividers s doc) = [rule1 ++ [10] ++ rule2]
  /\ valueOf (js "height") (segmentDeclarations s d1) = Some (js "3px")
  /\ valueOf (js "background-color") (segmentDeclarations s d1)
     = Some (js "#ff0000")
  /\ valueOf (js "border-radius") (segmentDeclarations s d1) = Some (js "1.5px")
  /\ valueOf (js "top") (segmentDeclarations s d1) = Some (js "-11px")
  /\ valueOf (js "bottom") (segmentDeclarations s d1) = None
  /\ valueOf (js "margin-top") (spacingDeclarations d1) = Some (js "16px").
Proof.
  intros d1 d2 s doc rule1 rule2.
  assert (Ht : (1 <= dividerThickness s <= 5)%Z) by (cbn; lia).
  assert (Hwf : wellFormed doc = true) by (vm_compute; reflexivity).
  destruct (C3_rule_geometry s d1 0 doc Ht eq_refl Hwf)
    as (H1 & _ & _ & _ & _ & _ & H5 & H6 & H7 & H8 & H9 & _).
  split; [rewrite H1; vm_compute; reflexivity|].
  split; [exact H5 | split; [exact H6 | split;
    [exact H7 | split; [exact H8 | split;
      [vm_compute; reflexivity | exact H9]]]]].
Defined.

(** ** Further examples *)

Example trim_title : trim (js "  Animals ") = js "Animals".
Proof. reflexivity. Qed.

Example withoutExt_examples :
  withoutExt (js "todo.md") = js "todo"
  /\ withoutExt (js "todo") = js "todo"
  /\ withoutExt (js "a.b.c") = js "a.b"
  /\ withoutExt (js "notes.") = js "notes."
  /\ withoutExt (js ".gitignore") = [].
Proof. repeat split. Qed.

Example halfToString_examples :
  halfToString 3 = js "1.5" /\ halfToString 4 = js "2"
  /\ halfToString 1 = js "0.5".
Proof. repeat split. Qed.

(* ================================================================== *)
(** * Further properties of the code *)
(* ================================================================== *)

(** ** The store, continued *)

Lemma sameItem_iff name type d :
  sameItem name type d = true <-> itemName d = name /\ itemType d = type.
Proof.
  unfold sameItem. rewrite andb_true_iff, strictEq_iff.
  destruct (itemType d), type; cbn; intuition congruence.
Qed.

Lemma sameItem_positions name type d :
  sameItem name type d
  = sameItemAt name type above d || sameItemAt name type below d.
Proof.
  unfold sameItem, sameItemAt.
  destruct (strictEq _ _), (ItemType_eqb _ _), (position d); reflexivity.
Qed.

Lemma filter_twice {A : Type} (f g : A -> bool) (l : list A) :
  filter g (filter f l) = filter (fun x => f x && g x) l.
Proof.
  induction l as [|x l IH]; [reflexivity|].
  cbn. destruct (f x); cbn; [destruct (g x)|]; rewrite IH; reflexivity.
Qed.

Lemma removed_count {A : Type} (f : A -> bool) (l : list A) :
  (length l - length (filter (fun x => negb (f x)) l))%nat
  = length (filter f l).
Proof. pose proof (filter_length f l). lia. Qed.

Lemma presentation_bareDocument s doc :
  wellFormed doc = true ->
  presentation s doc = presentation s (bareDocument doc).
Proof.
  intros H. unfold presentation. destruct (enabled s).
  - apply applyDividers_bareDocument, H.
  - rewrite (removeDividers_wellFormed _ H).
    symmetry. apply removeDividers_retracted, retracted_bareDocument.
Qed.

Lemma bareDocument_presentation s doc :
  bareDocument (presentation s doc) = bareDocument doc.
Proof.
  unfold presentation. destruct (enabled s);
    auto using bareDocument_applyDividers, bareDocument_removeDividers.
Qed.

Lemma wellFormed_presentation s doc :
  wellFormed doc = true -> wellFormed (presentation s doc) = true.
Proof.
  unfold presentation. destruct (enabled s);
    auto using wellFormed_applyDividers, wellFormed_removeDividers.
Qed.

Lemma wellFormed_bareDocument doc : wellFormed (bareDocument doc) = true.
Proof. apply retracted_wellFormed, retracted_bareDocument. Qed.

Lemma presentation_twice s s' doc :
  wellFormed doc = true ->
  presentation s' (presentation s doc) = presentation s' doc.
Proof.
  intros H.
  rewrite (presentation_bareDocument s' (presentation s doc))
    by (apply wellFormed_presentation, H).
  rewrite bareDocument_presentation.
  symmetry. apply presentation_bareDocument, H.
Qed.

Lemma saveSettings_presentation (w : World) :
  saveSettings w =
  mkWorld (settings w) (presentation (settings w) (document w)) (notices w)
          (savedData w ++ [settings w]).
Proof. apply saveSettings_eq. Qed.

(** X1.  [removeDividersFromItem] deletes every record of the item, at any
    position, and keeps the other records in their order.  If it deleted
    something it saves the settings, rebuilds the presentation and shows
    the number of records deleted; if the item has no record it changes
    nothing and shows nothing. *)
Theorem X1_remove_all_of_item (name : jsstring) (type : ItemType) (w : World) :
  let ds := dividers (settings w) in
  let kept := filter (fun d => negb (sameItem name type d)) ds in
  let s' := setDividers kept (settings w) in
  (forall d, In d kept <->
             In d ds /\ ~ (itemName d = name /\ itemType d = type))
  /\ (existsb (sameItem name type) ds = true ->
      removeDividersFromItem name type w =
      mkWorld s' (presentation s' (document w))
        (notices w ++
           [js "Removed "
              ++ numberToString
                   (Z.of_nat (length (filter (sameItem name type) ds)))
              ++ js " divider(s) from " ++ ItemType_str type ++ js " "
              ++ dquote ++ name ++ dquote])
        (savedData w ++ [s']))
  /\ (existsb (sameItem name type) ds = false ->
      removeDividersFromItem name type w = w).
Proof.
  intros ds kept s'. split; [|split].
  - intros d. unfold kept. rewrite filter_In, negb_true_iff.
    rewrite <- sameItem_iff. destruct (sameItem name type d); intuition congruence.
  - intros H. rewrite removeDividersFromItem_eq. cbn zeta. fold ds. rewrite H.
    unfold Notice. rewrite saveSettings_presentation. cbn.
    fold ds. unfold removedCountNotice. rewrite removed_count. reflexivity.
  - intros H. rewrite removeDividersFromItem_eq. cbn zeta. fold ds. rewrite H.
    unfold setSettings. cbn. fold ds.
    rewrite (filter_none_matching _ _ H). destruct w as [[? ? ? ?] ? ? ?].
    reflexivity.
Qed.

Lemma X1_remove_all_of_item_witness :
  let w := run [Add (js "Animals") folder below; Add (js "todo.md") file above;
                Add (js "Animals") folder above]
             (initialWorld DEFAULT_SETTINGS None) in
  dividers (settings (removeDividersFromItem (js "Animals") folder w))
  = [mkDivider (js "todo.md") file above line]
  /\ notices (removeDividersFromItem (js "Animals") folder w)
     = notices w ++ [js "Removed 2 divider(s) from folder " ++ dquote
                       ++ js "Animals" ++ dquote]
  /\ removeDividersFromItem (js "Animals") file w = w.
Proof.
  intros w.
  destruct (X1_remove_all_of_item (js "Animals") folder w) as (_ & H & _).
  destruct (X1_remove_all_of_item (js "Animals") file w) as (_ & _ & H').
  rewrite (H eq_refl). split; [reflexivity | split; [reflexivity|]].
  apply H'. reflexivity.
Defined.

Lemma settings_removeDividerFromItem name type pos w :
  settings (removeDividerFromItem name type pos w)
  = setDividers (filter (fun d => negb (sameItemAt name type pos d))
                        (dividers (settings w))) (settings w).
Proof.
  rewrite removeDividerFromItem_eq. cbn zeta.
  destruct (existsb _ _); unfold Notice; rewrite ?saveSettings_presentation;
    reflexivity.
Qed.

Lemma document_removeDividerFromItem name type pos w :
  document (removeDividerFromItem name type pos w)
  = if existsb (sameItemAt name type pos) (dividers (settings w))
    then presentation (settings (removeDividerFromItem name type pos w))
           (document w)
    else document w.
Proof.
  rewrite settings_removeDividerFromItem.
  rewrite removeDividerFromItem_eq. cbn zeta.
  destruct (existsb _ _); unfold Notice; rewrite ?saveSettings_presentation;
    reflexivity.
Qed.

Lemma settings_removeDividersFromItem name type w :
  settings (removeDividersFromItem name type w)
  = setDividers (filter (fun d => negb (sameItem name type d))
                        (dividers (settings w))) (settings w).
Proof.
  rewrite removeDividersFromItem_eq. cbn zeta.
  destruct (existsb _ _); unfold Notice; rewrite ?saveSettings_presentation;
    reflexivity.
Qed.

Lemma document_removeDividersFromItem name type w :
  document (removeDividersFromItem name type w)
  = if existsb (sameItem name type) (dividers (settings w))
    then presentation (settings (removeDividersFromItem name type w))
           (document w)
    else document w.
Proof.
  rewrite settings_removeDividersFromItem.
  rewrite removeDividersFromItem_eq. cbn zeta.
  destruct (existsb _ _); unfold Notice; rewrite ?saveSettings_presentation;
    reflexivity.
Qed.

Lemma existsb_sameItem name type ds :
  existsb (sameItem name type) ds
  = existsb (sameItemAt name type above) ds
    || existsb (sameItemAt name type below) ds.
Proof.
  induction ds as [|d ds IH]; [reflexivity|].
  cbn. rewrite IH, sameItem_positions.
  destruct (sameItemAt name type above d), (sameItemAt name type below d),
    (existsb (sameItemAt name type above) ds); reflexivity.
Qed.

Lemma existsb_below_after_above name type ds :
  existsb (sameItemAt name type below)
    (filter (fun d => negb (sameItemAt name type above d)) ds)
  = existsb (sameItemAt name type below) ds.
Proof.
  induction ds as [|d ds IH]; [reflexivity|].
  cbn. destruct (sameItemAt name type above d) eqn:Ea; cbn; rewrite IH.
  - replace (sameItemAt name type below d) with false; [reflexivity|].
    unfold sameItemAt in *. destruct (position d);
      rewrite ?andb_false_r in *; [reflexivity | discriminate].
  - reflexivity.
Qed.

Lemma above_then_below name type (ds : list Divider) :
  filter (fun d => negb (sameItemAt name type below d))
    (filter (fun d => negb (sameItemAt name type above d)) ds)
  = filter (fun d => negb (sameItem name type d)) ds.
Proof.
  rewrite filter_twice. apply filter_ext. intros d.
  rewrite sameItem_positions, negb_orb. reflexivity.
Qed.

Lemma removed_at_most_one name type pos ds :
  NoDup (map key ds) ->
  (length ds
   <= length (filter (fun d => negb (sameItemAt name type pos d)) ds) + 1)%nat.
Proof.
  intros Hnd. destruct (existsb (sameItemAt name type pos) ds) eqn:E.
  - rewrite (unique_match_removed _ _ _ _ Hnd E) at 1. lia.
  - rewrite (filter_none_matching _ _ E). lia.
Qed.

(** X2.  On the settings and on a well-formed document,
    [removeDividersFromItem] does what [removeDividerFromItem] does for
    above and then for below; with unique records it deletes at most two. *)
Theorem X2_remove_all_is_remove_above_then_below
  (name : jsstring) (type : ItemType) (w : World) :
  wellFormed (document w) = true ->
  let w1 := removeDividersFromItem name type w in
  let w2 := removeDividerFromItem name type below
              (removeDividerFromItem name type above w) in
  settings w1 = settings w2
  /\ document w1 = document w2
  /\ (NoDup (map key (dividers (settings w))) ->
      (length (dividers (settings w))
       <= length (dividers (settings w1)) + 2)%nat).
Proof.
  intros Hwf w1 w2.
  assert (Hs : settings w1 = settings w2).
  { unfold w1, w2. rewrite settings_removeDividersFromItem.
    rewrite !settings_removeDividerFromItem. cbn.
    rewrite above_then_below. reflexivity. }
  split; [exact Hs | split].
  - unfold w2. rewrite document_removeDividerFromItem. fold w2.
    rewrite <- Hs. unfold w1 at 1.
    rewrite document_removeDividersFromItem. fold w1.
    rewrite existsb_sameItem.
    rewrite settings_removeDividerFromItem at 1.
    cbn [dividers setDividers]. rewrite existsb_below_after_above.
    rewrite document_removeDividerFromItem.
    destruct (existsb (sameItemAt name type above) _) eqn:Ea,
             (existsb (sameItemAt name type below) _) eqn:Eb; cbn [orb].
    + symmetry. apply presentation_twice, Hwf.
    + f_equal. rewrite Hs. unfold w2.
      rewrite settings_removeDividerFromItem.
      rewrite <- existsb_below_after_above in Eb.
      rewrite settings_removeDividerFromItem in *. cbn in *.
      rewrite (filter_none_matching _ _ Eb). reflexivity.
    + reflexivity.
    + reflexivity.
  - intros Hnd. unfold w1. rewrite settings_removeDividersFromItem.
    cbn [dividers setDividers]. rewrite <- above_then_below.
    pose proof (removed_at_most_one name type above _ Hnd) as H1.
    pose proof (removed_at_most_one name type below _
                  (NoDup_key_filter
                     (fun d => negb (sameItemAt name type above d)) _ Hnd))
      as H2.
    lia.
Qed.

Lemma X2_remove_all_witness :
  let w := run [Add (js "Animals") folder below; Add (js "Animals") folder above;
                Add (js "todo.md") file above]
             (initialWorld DEFAULT_SETTINGS
                (Some [freshRow nav_folder (js "Animals")])) in
  settings (removeDividersFromItem (js "Animals") folder w)
  = settings (removeDividerFromItem (js "Animals") folder below
                (removeDividerFromItem (js "Animals") folder above w))
  /\ length (dividers (settings (removeDividersFromItem (js "Animals") folder w)))
     = 1%nat.
Proof.
  intros w.
  assert (Hwf : wellFormed (document w) = true) by reflexivity.
  destruct (X2_remove_all_is_remove_above_then_below (js "Animals") folder w Hwf)
    as (H & _ & _).
  split; [exact H | reflexivity].
Defined.

(** ** What a command saves, and what the document shows *)

Lemma settings_differ_length (s s' : FilesDividersSettings) :
  length (dividers s) <> length (dividers s') -> s <> s'.
Proof. intros H E. apply H. rewrite E. reflexivity. Qed.

(** A command either leaves settings and saved data alone, or changes the
    settings and saves them. *)
Lemma perform_saves_changes (c : Command) (w : World) :
  (settings (perform c w) = settings w
   /\ savedData (perform c w) = savedData w)
  \/ (settings (perform c w) <> settings w
      /\ savedData (perform c w) = savedData w ++ [settings (perform c w)]).
Proof.
  destruct c as [n t p | n t p | n t | | |]; cbn [perform].
  - rewrite addDividerToItem_eq. destruct (existsb _ _); [left; split; reflexivity|].
    right. unfold Notice. rewrite saveSettings_presentation. cbn. split; [|reflexivity].
    apply settings_differ_length. cbn. rewrite length_app. cbn. lia.
  - rewrite removeDividerFromItem_eq. cbn zeta.
    pose proof (filter_shorter (sameItemAt n t p) (dividers (settings w))) as Hl.
    destruct (existsb _ _) eqn:E.
    + right. unfold Notice. rewrite saveSettings_presentation. cbn.
      split; [|reflexivity]. apply settings_differ_length. cbn.
      apply Nat.ltb_lt in Hl. lia.
    + left. unfold setSettings. cbn. rewrite (filter_none_matching _ _ E).
      destruct (settings w); split; reflexivity.
  - rewrite removeDividersFromItem_eq. cbn zeta.
    pose proof (filter_shorter (sameItem n t) (dividers (settings w))) as Hl.
    destruct (existsb _ _) eqn:E.
    + right. unfold Notice. rewrite saveSettings_presentation. cbn.
      split; [|reflexivity]. apply settings_differ_length. cbn.
      apply Nat.ltb_lt in Hl. lia.
    + left. unfold setSettings. cbn. rewrite (filter_none_matching _ _ E).
      destruct (settings w); split; reflexivity.
  - unfold clearAllDividers.
    destruct (dividers (settings w)) as [|d ds] eqn:E; cbn [length Nat.eqb].
    + left. split; reflexivity.
    + right. unfold andThen, Notice. rewrite saveSettings_presentation. cbn.
      split; [|reflexivity]. apply settings_differ_length. cbn. rewrite E.
      discriminate.
  - right. rewrite toggleDividers_eq. cbn. split; [|reflexivity].
    intros E. apply (f_equal enabled) in E. cbn in E.
    destruct (enabled (settings w)); discriminate.
  - left. unfold applyIfEnabled. destruct (enabled _); split; reflexivity.
Qed.

(** X3.  Every command of the user either leaves the settings and the saved
    data as they are, or changes the settings and saves exactly the new
    settings: no change is left unsaved, and nothing is saved without a
    change.  So after any run, the data last saved are the current settings
    (and if nothing was saved the settings are those of the start). *)
Theorem X3_saved_data_follow_settings (cs : list Command) (w : World)
  (d : FilesDividersSettings) :
  last (savedData w) d = settings w ->
  last (savedData (run cs w)) d = settings (run cs w)
  /\ (forall c,
        (settings (perform c w) = settings w
         /\ savedData (perform c w) = savedData w)
        \/ (settings (perform c w) <> settings w
            /\ savedData (perform c w)
               = savedData w ++ [settings (perform c w)])).
Proof.
  intros H. split; [|intros c; apply perform_saves_changes].
  revert w H. induction cs as [|c cs IH]; intros w H; [exact H|].
  cbn [run fold_left]. apply IH.
  destruct (perform_saves_changes c w) as [[-> ->] | [_ ->]];
    [exact H | apply last_last].
Qed.

Lemma X3_saved_data_witness :
  let w0 := initialWorld DEFAULT_SETTINGS None in
  let w := run [Add (js "Animals") folder below; Add (js "Animals") folder below;
                Toggle; RemoveOne (js "x") file above; LayoutChange] w0 in
  last (savedData w) DEFAULT_SETTINGS = settings w
  /\ length (savedData w) = 2%nat.
Proof.
  intros w0 w.
  destruct (X3_saved_data_follow_settings
              [Add (js "Animals") folder below; Add (js "Animals") folder below;
               Toggle; RemoveOne (js "x") file above; LayoutChange]
              w0 DEFAULT_SETTINGS eq_refl) as [H _].
  split; [exact H | reflexivity].
Defined.

Lemma inSync_wellFormed (w : World) : inSync w -> wellFormed (document w) = true.
Proof.
  unfold inSync. intros H. rewrite H.
  apply wellFormed_presentation, wellFormed_bareDocument.
Qed.

Lemma inSync_presentation (w : World) (doc : Document) :
  wellFormed doc = true ->
  document w = presentation (settings w) doc -> inSync w.
Proof.
  unfold inSync. intros Hwf H. rewrite H at 2.
  rewrite bareDocument_presentation, H.
  apply presentation_bareDocument, Hwf.
Qed.

Lemma inSync_saveSettings (w : World) :
  wellFormed (document w) = true -> inSync (saveSettings w).
Proof.
  intros H. apply (inSync_presentation _ (document w) H).
  rewrite saveSettings_presentation. reflexivity.
Qed.

Lemma inSync_applyDividers (w : World) :
  wellFormed (document w) = true -> enabled (settings w) = true ->
  inSync (applyDividers w).
Proof.
  intros H He. apply (inSync_presentation _ (document w) H).
  rewrite applyDividers_eq. unfold presentation. cbn. rewrite He. reflexivity.
Qed.

Lemma inSync_perform (c : Command) (w : World) :
  inSync w -> inSync (perform c w).
Proof.
  intros H. pose proof (inSync_wellFormed w H) as Hwf.
  destruct c as [n t p | n t p | n t | | |]; cbn [perform].
  - rewrite addDividerToItem_eq.
    destruct (existsb _ _); [exact H|]. apply inSync_saveSettings, Hwf.
  - rewrite removeDividerFromItem_eq. cbn zeta.
    destruct (existsb _ _) eqn:E; [apply inSync_saveSettings, Hwf|].
    unfold setSettings. rewrite (filter_none_matching _ _ E).
    destruct w as [[? ? ? ?] ? ? ?]. exact H.
  - rewrite removeDividersFromItem_eq. cbn zeta.
    destruct (existsb _ _) eqn:E; [apply inSync_saveSettings, Hwf|].
    unfold setSettings. rewrite (filter_none_matching _ _ E).
    destruct w as [[? ? ? ?] ? ? ?]. exact H.
  - unfold clearAllDividers.
    destruct (_ =? _)%nat; [exact H | apply inSync_saveSettings, Hwf].
  - unfold toggleDividers, andThen. apply inSync_saveSettings, Hwf.
  - unfold applyIfEnabled. destruct (enabled _) eqn:E; [|exact H].
    apply inSync_applyDividers; assumption.
Qed.

Lemma inSync_run (cs : list Command) (w : World) :
  inSync w -> inSync (run cs w).
Proof.
  revert w. induction cs as [|c cs IH]; intros w H; [exact H|].
  apply IH, inSync_perform, H.
Qed.

Lemma bareDocument_perform (c : Command) (w : World) :
  bareDocument (document (perform c w)) = bareDocument (document w).
Proof.
  destruct c as [n t p | n t p | n t | | |]; cbn [perform].
  - rewrite addDividerToItem_eq. destruct (existsb _ _); [reflexivity|].
    unfold Notice. rewrite saveSettings_presentation. cbn.
    apply bareDocument_presentation.
  - rewrite document_removeDividerFromItem.
    destruct (existsb _ _); [apply bareDocument_presentation | reflexivity].
  - rewrite document_removeDividersFromItem.
    destruct (existsb _ _); [apply bareDocument_presentation | reflexivity].
  - unfold clearAllDividers. destruct (_ =? _)%nat; [reflexivity|].
    unfold andThen, Notice. rewrite saveSettings_presentation. cbn.
    apply bareDocument_presentation.
  - rewrite toggleDividers_eq. cbn.
    destruct (enabled (settings w)); cbn;
      auto using bareDocument_applyDividers, bareDocument_removeDividers.
  - unfold applyIfEnabled. destruct (enabled _); [|reflexivity].
    rewrite applyDividers_eq. cbn. apply bareDocument_applyDividers.
Qed.

Lemma bareDocument_run (cs : list Command) (w : World) :
  bareDocument (document (run cs w)) = bareDocument (document w).
Proof.
  revert w. induction cs as [|c cs IH]; intros w; [reflexivity|].
  cbn [run fold_left]. fold (run cs (perform c w)).
  rewrite IH. apply bareDocument_perform.
Qed.

Lemma startSession_eq (data : option SavedData)
  (explorer : option (list Element)) :
  startSession data explorer =
  let s := assign DEFAULT_SETTINGS data in
  mkWorld s
    (if enabled s then Dom.applyDividers s (mkDocument [] explorer)
     else mkDocument [] explorer)
    [] [].
Proof.
  unfold startSession, onload, andThen, loadSettings, applyIfEnabled,
    setSettings, initialWorld. cbn [settings document notices savedData].
  cbv zeta. destruct (enabled _); reflexivity.
Qed.

Lemma inSync_startSession (data : option SavedData)
  (explorer : option (list Element)) :
  retracted (mkDocument [] explorer) = true ->
  inSync (startSession data explorer).
Proof.
  intros H. apply (inSync_presentation _ (mkDocument [] explorer)).
  - apply retracted_wellFormed, H.
  - rewrite startSession_eq. cbn. unfold presentation.
    destruct (enabled _); [reflexivity|].
    symmetry. apply removeDividers_retracted, H.
Qed.

Lemma bareDocument_retracted (doc : Document) :
  retracted doc = true -> bareDocument doc = doc.
Proof.
  intros H. rewrite <- (removeDividers_wellFormed doc)
    by apply retracted_wellFormed, H.
  apply removeDividers_retracted, H.
Qed.

Lemma inSync_shows (w : World) : inSync w -> shows w.
Proof.
  unfold inSync, shows, applied, presentation. intros H.
  destruct (enabled (settings w)) eqn:E; [left; exact H | right].
  split; [reflexivity|]. rewrite H at 1.
  apply removeDividers_retracted, retracted_bareDocument.
Qed.

Lemma shows_wellFormed (w : World) : shows w -> wellFormed (document w) = true.
Proof.
  unfold shows, applied. intros [H | [_ H]]; rewrite H.
  - apply wellFormed_applyDividers, wellFormed_bareDocument.
  - apply wellFormed_bareDocument.
Qed.

Lemma shows_perform (c : Command) (w : World) :
  shows w -> shows (perform c w).
Proof.
  intros H. pose proof (shows_wellFormed w H) as Hwf.
  destruct c as [n t p | n t p | n t | | |]; cbn [perform].
  - rewrite addDividerToItem_eq.
    destruct (existsb _ _); [exact H|].
    apply inSync_shows, inSync_saveSettings, Hwf.
  - rewrite removeDividerFromItem_eq. cbn zeta.
    destruct (existsb _ _) eqn:E;
      [apply inSync_shows, inSync_saveSettings, Hwf|].
    unfold setSettings. rewrite (filter_none_matching _ _ E).
    destruct w as [[? ? ? ?] ? ? ?]. exact H.
  - rewrite removeDividersFromItem_eq. cbn zeta.
    destruct (existsb _ _) eqn:E;
      [apply inSync_shows, inSync_saveSettings, Hwf|].
    unfold setSettings. rewrite (filter_none_matching _ _ E).
    destruct w as [[? ? ? ?] ? ? ?]. exact H.
  - unfold clearAllDividers.
    destruct (_ =? _)%nat;
      [exact H | apply inSync_shows, inSync_saveSettings, Hwf].
  - unfold toggleDividers, andThen.
    apply inSync_shows, inSync_saveSettings, Hwf.
  - unfold applyIfEnabled. destruct (enabled _) eqn:E; [|exact H].
    apply inSync_shows, inSync_applyDividers; assumption.
Qed.

Lemma applied_applyDividers (w : World) :
  wellFormed (document w) = true -> applied (applyDividers w).
Proof.
  intros H. unfold applied. rewrite applyDividers_eq.
  cbn [settings document]. rewrite bareDocument_applyDividers.
  apply applyDividers_bareDocument, H.
Qed.

Lemma shows_handle (e : Event) (ss : Session) :
  shows (world ss) -> shows (world (handle e ss)).
Proof.
  intros H. destruct e as [a | |]; cbn [handle].
  - apply shows_perform, H.
  - unfold onLayoutChange. destruct (enabled _); exact H.
  - unfold onTimeout. destruct (timers ss); [exact H|].
    left. apply applied_applyDividers, shows_wellFormed, H.
Qed.

Lemma shows_play (es : list Event) (ss : Session) :
  shows (world ss) -> shows (world (play es ss)).
Proof.
  revert ss. induction es as [|e es IH]; intros ss H; [exact H|].
  apply IH, shows_handle, H.
Qed.

Lemma inSync_handle (e : Event) (ss : Session) :
  isTimerFired e = false ->
  inSync (world ss) -> inSync (world (handle e ss)).
Proof.
  intros He H. destruct e as [a | |]; cbn [handle]; [| |discriminate].
  - apply inSync_perform, H.
  - unfold onLayoutChange. destruct (enabled _); exact H.
Qed.

Lemma inSync_play (es : list Event) (ss : Session) :
  forallb (fun e => negb (isTimerFired e)) es = true ->
  inSync (world ss) -> inSync (world (play es ss)).
Proof.
  revert ss. induction es as [|e es IH]; intros ss Hes H; [exact H|].
  cbn in Hes. apply andb_true_iff in Hes. destruct Hes as [He Hes].
  apply (IH _ Hes), inSync_handle; [apply negb_true_iff, He | exact H].
Qed.

Lemma bareDocument_handle (e : Event) (ss : Session) :
  bareDocument (document (world (handle e ss)))
  = bareDocument (document (world ss)).
Proof.
  destruct e as [a | |]; cbn [handle].
  - apply bareDocument_perform.
  - unfold onLayoutChange. destruct (enabled _); reflexivity.
  - unfold onTimeout. destruct (timers ss); [reflexivity|].
    cbn [world]. rewrite applyDividers_eq. apply bareDocument_applyDividers.
Qed.

Lemma bareDocument_play (es : list Event) (ss : Session) :
  bareDocument (document (world (play es ss)))
  = bareDocument (document (world ss)).
Proof.
  revert ss. induction es as [|e es IH]; intros ss; [reflexivity|].
  cbn [play fold_left]. fold (play es (handle e ss)).
  rewrite IH. apply bareDocument_handle.
Qed.

(** X4.  What the document shows, in any order of user actions, layout
    changes and timers.  If the document shows the settings at the start,
    then afterwards: while dividers are enabled it is the document that
    [applyDividers] builds from the current settings and the bare rows;
    while they are disabled it is the bare rows, or else (a timer has fired
    since) that same applied document.  When no timer fires, it is the bare
    rows whenever dividers are disabled.  No style element or tag of earlier
    settings survives in any case. *)
Theorem X4_document_shows_settings (es : list Event) (ss : Session) :
  shows (world ss) ->
  let w' := world (play es ss) in
  let rows := bareDocument (document (world ss)) in
  (enabled (settings w') = true ->
   document w' = Dom.applyDividers (settings w') rows)
  /\ (enabled (settings w') = false ->
      document w' = rows
      \/ document w' = Dom.applyDividers (settings w') rows)
  /\ (inSync (world ss) ->
      forallb (fun e => negb (isTimerFired e)) es = true ->
      enabled (settings w') = false ->
      document w' = rows).
Proof.
  intros H w' rows.
  pose proof (shows_play es ss H) as H'. fold w' in H'.
  pose proof (bareDocument_play es ss) as Hb. fold w' in Hb. fold rows in Hb.
  unfold shows, applied in H'. rewrite Hb in H'.
  split; [|split].
  - intros He. destruct H' as [E | [E _]]; [exact E | congruence].
  - intros _. destruct H' as [E | [_ E]]; [right | left]; exact E.
  - intros Hs Hes He.
    pose proof (inSync_play es ss Hes Hs) as Hi. fold w' in Hi.
    unfold inSync, presentation in Hi. rewrite Hb, He in Hi. rewrite Hi.
    apply removeDividers_retracted, retracted_bareDocument.
Qed.

Lemma X4_document_shows_settings_witness :
  let rows := [freshRow nav_folder (js "Animals"); freshRow nav_file (js "todo")] in
  let ss := newSession None (Some rows) in
  let add := Act (DoAdd (js "Animals") folder below) in
  let quiet := world (play [add; LayoutChanged; TimerFired; Act DoToggle] ss) in
  let raced := world (play [add; LayoutChanged; Act DoToggle; TimerFired] ss) in
  let on := world (play [add; LayoutChanged; Act DoToggle; TimerFired;
                         Act DoToggle] ss) in
  document quiet = bareDocument (document (world ss))
  /\ document on
     = Dom.applyDividers (settings on) (bareDocument (document (world ss)))
  /\ bareDocument (document (world ss)) = mkDocument [] (Some rows)
  /\ enabled (settings raced) = false
  /\ retracted (document raced) = false.
Proof.
  intros rows ss add quiet raced on.
  assert (Hr : retracted (mkDocument [] (Some rows)) = true)
    by (vm_compute; reflexivity).
  assert (Hi : inSync (world ss)) by (apply inSync_startSession, Hr).
  assert (Hq : enabled (settings quiet) = false) by (vm_compute; reflexivity).
  assert (Hon : enabled (settings on) = true) by (vm_compute; reflexivity).
  assert (Hnt : forallb (fun e => negb (isTimerFired e))
                  [add; LayoutChanged; Act DoToggle] = true)
    by (vm_compute; reflexivity).
  destruct (X4_document_shows_settings
              [add; LayoutChanged; Act DoToggle; TimerFired; Act DoToggle] ss
              (inSync_shows _ Hi)) as (H1 & _ & _).
  split.
  - assert (E : quiet = world (play [add; LayoutChanged; Act DoToggle] ss))
      by (vm_compute; reflexivity).
    rewrite E in *.
    destruct (X4_document_shows_settings [add; LayoutChanged; Act DoToggle] ss
                (inSync_shows _ Hi)) as (_ & _ & H3).
    exact (H3 Hi Hnt Hq).
  - split; [exact (H1 Hon)|].
    split; [vm_compute; reflexivity|].
    split; vm_compute; reflexivity.
Defined.

(** X5.  No command ever changes the rows themselves: after any run the
    explorer has the same rows, in the same order, with the same kinds and
    titles; only the plugin's classes and attributes differ. *)
Theorem X5_rows_are_kept (cs : list Command) (w : World) :
  option_map (map (fun el => (kind el, title el)))
             (fileExplorer (document (run cs w)))
  = option_map (map (fun el => (kind el, title el)))
               (fileExplorer (document w)).
Proof.
  pose proof (bareDocument_run cs w) as H.
  apply (f_equal fileExplorer) in H. cbn in H.
  destruct (fileExplorer (document (run cs w))) as [rows'|],
           (fileExplorer (document w)) as [rows|]; cbn in *;
    try discriminate; [|reflexivity].
  injection H as H. f_equal.
  apply (f_equal (map (fun el => (kind el, title el)))) in H.
  rewrite !map_map in H. exact H.
Qed.

(** ** Sessions *)

Lemma last_cons {A : Type} (x d : A) (l : list A) :
  last (x :: l) d = last l x.
Proof.
  revert x d. induction l as [|y l IH]; intros x d; [reflexivity|].
  change (last (x :: y :: l) d) with (last (y :: l) d).
  rewrite (IH y d), (IH y x). reflexivity.
Qed.

Lemma assign_toSavedData (base s : FilesDividersSettings) :
  assign base (Some (toSavedData s)) = s.
Proof. destruct s; reflexivity. Qed.

Lemma assign_dataAfter (data : option SavedData) (w : World) :
  last (savedData w) (assign DEFAULT_SETTINGS data) = settings w ->
  assign DEFAULT_SETTINGS (dataAfter data w) = settings w.
Proof.
  unfold dataAfter. destruct (savedData w) as [|s r]; [auto|].
  rewrite last_cons, assign_toSavedData. auto.
Qed.

Lemma last_saved_run (cs : list Command) (w : World)
  (d : FilesDividersSettings) :
  last (savedData w) d = settings w ->
  last (savedData (run cs w)) d = settings (run cs w).
Proof.
  revert w. induction cs as [|c cs IH]; intros w H; [exact H|].
  cbn [run fold_left]. apply IH.
  destruct (perform_saves_changes c w) as [[-> ->] | [_ ->]];
    [exact H | apply last_last].
Qed.

Lemma last_saved_handle (e : Event) (ss : Session)
  (d : FilesDividersSettings) :
  last (savedData (world ss)) d = settings (world ss) ->
  last (savedData (world (handle e ss))) d = settings (world (handle e ss)).
Proof.
  intros H. destruct e as [a | |]; cbn [handle].
  - cbn [during world].
    destruct (perform_saves_changes (commandOf a) (world ss))
      as [[-> ->] | [_ ->]]; [exact H | apply last_last].
  - unfold onLayoutChange. destruct (enabled _); exact H.
  - unfold onTimeout. destruct (timers ss); exact H.
Qed.

Lemma last_saved_play (es : list Event) (ss : Session)
  (d : FilesDividersSettings) :
  last (savedData (world ss)) d = settings (world ss) ->
  last (savedData (world (play es ss))) d = settings (world (play es ss)).
Proof.
  revert ss. induction es as [|e es IH]; intros ss H; [exact H|].
  apply IH, last_saved_handle, H.
Qed.

(** X6.  What a restart restores, in any order of user actions, layout
    changes and timers.  Take a session that loads [data] over an explorer
    whose rows are untagged; a new session that loads what was saved last
    ([data] itself if nothing was saved) over the same rows has the same
    settings, and its document is the one the settings call for.  That is
    the document the old session ended with whenever dividers were enabled
    at the end, or no timer had fired.  Fields the loaded data lack are
    those of [DEFAULT_SETTINGS]. *)
Theorem X6_restart_restores_the_session (data : option SavedData)
  (explorer : option (list Element)) (es : list Event) :
  retracted (mkDocument [] explorer) = true ->
  let w := world (play es (newSession data explorer)) in
  let w' := startSession (dataAfter data w) explorer in
  settings w' = settings w
  /\ document w' = presentation (settings w) (mkDocument [] explorer)
  /\ (enabled (settings w) = true -> document w' = document w)
  /\ (forallb (fun e => negb (isTimerFired e)) es = true ->
      document w' = document w)
  /\ settings (startSession None explorer) = DEFAULT_SETTINGS.
Proof.
  intros Hr w w'.
  assert (Hs : assign DEFAULT_SETTINGS (dataAfter data w) = settings w).
  { apply assign_dataAfter. apply last_saved_play.
    unfold newSession. cbn [world]. rewrite startSession_eq. reflexivity. }
  assert (Hb : bareDocument (document w) = mkDocument [] explorer).
  { unfold w. rewrite bareDocument_play. unfold newSession. cbn [world].
    rewrite startSession_eq. cbn.
    destruct (enabled _);
      [rewrite bareDocument_applyDividers|];
      apply bareDocument_retracted, Hr. }
  assert (Hd : document w'
               = presentation (settings w) (mkDocument [] explorer)).
  { unfold w'. rewrite startSession_eq. cbv zeta. cbn [document].
    rewrite Hs. unfold presentation.
    destruct (enabled (settings w)); [reflexivity|].
    symmetry. apply removeDividers_retracted, Hr. }
  assert (Hi : inSync (world (newSession data explorer)))
    by (apply inSync_startSession, Hr).
  split; [unfold w'; rewrite startSession_eq; exact Hs|].
  split; [exact Hd|].
  split; [|split].
  - intros He. rewrite Hd. unfold presentation. rewrite He.
    pose proof (shows_play es _ (inSync_shows _ Hi)) as H. fold w in H.
    unfold shows, applied in H. rewrite Hb in H.
    destruct H as [E | [E _]]; [symmetry; exact E | congruence].
  - intros Hes. rewrite Hd.
    pose proof (inSync_play es _ Hes Hi) as H. fold w in H.
    unfold inSync in H. rewrite Hb in H. symmetry. exact H.
  - rewrite startSession_eq. reflexivity.
Qed.

Lemma X6_restart_witness :
  let explorer := Some [freshRow nav_folder (js "Animals");
                        freshRow nav_file (js "todo")] in
  let data := Some (mkSavedData None (Some (js "#ff0000")) None None) in
  let es := [Act (DoAdd (js "Animals") folder below); LayoutChanged;
             Act (DoAdd (js "todo.md") file above); TimerFired;
             Act DoToggle; Act DoToggle] in
  let w := world (play es (newSession data explorer)) in
  settings (startSession (dataAfter data w) explorer) = settings w
  /\ document (startSession (dataAfter data w) explorer) = document w
  /\ settings w
     = mkSettings [mkDivider (js "Animals") folder below line;
                   mkDivider (js "todo.md") file above line]
                  (js "#ff0000") 1 true.
Proof.
  intros explorer data es w.
  assert (Hr : retracted (mkDocument [] explorer) = true)
    by (vm_compute; reflexivity).
  assert (He : enabled (settings w) = true) by (vm_compute; reflexivity).
  destruct (X6_restart_restores_the_session data explorer es Hr)
    as (H1 & _ & H3 & _).
  split; [exact H1 | split; [exact (H3 He) | vm_compute; reflexivity]].
Defined.

Lemma find_snoc_new {A : Type} (f : A -> bool) (l : list A) (x : A) :
  existsb f l = false -> f x = true -> find f (l ++ [x]) = Some x.
Proof.
  induction l as [|y l IH]; cbn; intros H Hx; [rewrite Hx; reflexivity|].
  destruct (f y); [discriminate | auto].
Qed.

Lemma filter_snoc_new {A : Type} (f : A -> bool) (l : list A) (x : A) :
  existsb f l = false -> f x = true ->
  filter (fun y => negb (f y)) (l ++ [x]) = l.
Proof.
  intros H Hx. rewrite filter_app. cbn. rewrite Hx. cbn.
  rewrite (filter_none_matching _ _ H). apply app_nil_r.
Qed.

Lemma sameItemAt_new name type pos sty :
  sameItemAt name type pos (mkDivider name type pos sty) = true.
Proof. apply sameItemAt_iff. reflexivity. Qed.

(** X7.  Adding a divider the store does not hold, and removing it again,
    is a round trip: after the addition the record is found (it is the one
    the menu looks up), and after the removal the settings and the document
    are what they were. *)
Theorem X7_add_then_remove_round_trip (name : jsstring) (type : ItemType)
  (pos : Position) (w : World) :
  inSync w ->
  ~ In (name, type, pos) (map key (dividers (settings w))) ->
  let w1 := addDividerToItem name type pos w in
  let w2 := removeDividerFromItem name type pos w1 in
  find (sameItemAt name type pos) (dividers (settings w1))
  = Some (mkDivider name type pos line)
  /\ dividers (settings w1)
     = dividers (settings w) ++ [mkDivider name type pos line]
  /\ settings w2 = settings w
  /\ document w2 = document w.
Proof.
  intros Hsync Hnew w1 w2.
  pose proof (inSync_wellFormed w Hsync) as Hwf.
  rewrite <- existsb_sameItemAt in Hnew. apply not_true_is_false in Hnew.
  assert (E1 : w1 = Notice (addedNotice name type pos)
                      (saveSettings
                         (setSettings
                            (fun s => setDividers
                               (dividers s ++ [mkDivider name type pos line]) s)
                            w))).
  { unfold w1. rewrite addDividerToItem_eq, Hnew. reflexivity. }
  assert (Hd : dividers (settings w1)
               = dividers (settings w) ++ [mkDivider name type pos line]).
  { rewrite E1. unfold Notice. rewrite saveSettings_presentation. reflexivity. }
  assert (Hs2 : settings w2 = settings w).
  { unfold w2. rewrite settings_removeDividerFromItem, Hd.
    rewrite (filter_snoc_new _ _ _ Hnew (sameItemAt_new name type pos line)).
    rewrite E1. unfold Notice. rewrite saveSettings_presentation. cbn.
    destruct (settings w); reflexivity. }
  split; [|split; [exact Hd | split; [exact Hs2|]]].
  - rewrite Hd. apply find_snoc_new; [exact Hnew | apply sameItemAt_new].
  - unfold w2. rewrite document_removeDividerFromItem. fold w2. rewrite Hs2.
    replace (existsb _ _) with true.
    2:{ symmetry. rewrite Hd, existsb_app. cbn.
        rewrite sameItemAt_new. apply orb_true_r. }
    rewrite E1. unfold Notice. rewrite saveSettings_presentation. cbn.
    rewrite (presentation_twice _ _ _ Hwf).
    unfold inSync in Hsync. rewrite Hsync at 2.
    apply presentation_bareDocument, Hwf.
Qed.

Lemma X7_add_then_remove_witness :
  let w := run [Add (js "Animals") folder below]
             (startSession None (Some [freshRow nav_folder (js "Animals");
                                       freshRow nav_folder (js "Science")])) in
  let w1 := addDividerToItem (js "Science") folder above w in
  settings (removeDividerFromItem (js "Science") folder above w1) = settings w
  /\ document (removeDividerFromItem (js "Science") folder above w1)
     = document w
  /\ document w1 <> document w.
Proof.
  intros w w1.
  assert (H : inSync w).
  { apply inSync_run, inSync_startSession. reflexivity. }
  assert (Hn : ~ In (js "Science", folder, above)
                    (map key (dividers (settings w)))).
  { cbn. intros [E | []]. discriminate. }
  destruct (X7_add_then_remove_round_trip (js "Science") folder above w H Hn)
    as (_ & _ & H3 & H4).
  split; [exact H3 | split; [exact H4|]]. discriminate.
Defined.

Lemma enabled_perform (c : Command) (w : World) :
  isToggle c = false ->
  enabled (settings (perform c w)) = enabled (settings w).
Proof.
  destruct c as [n t p | n t p | n t | | |]; cbn [perform isToggle];
    intros H; try discriminate.
  - rewrite addDividerToItem_eq. destruct (existsb _ _); [reflexivity|].
    unfold Notice. rewrite saveSettings_presentation. reflexivity.
  - rewrite settings_removeDividerFromItem. reflexivity.
  - rewrite settings_removeDividersFromItem. reflexivity.
  - unfold clearAllDividers. destruct (_ =? _)%nat; [reflexivity|].
    unfold andThen, Notice. rewrite saveSettings_presentation. reflexivity.
  - unfold applyIfEnabled.
    destruct (enabled (settings w)) eqn:E; [|exact E].
    rewrite applyDividers_eq. exact E.
Qed.

(** X8.  While dividers are disabled, only [toggleDividers] brings them
    back: any run of the other commands (additions, removals, clearing,
    layout changes) leaves them disabled and leaves the document without
    style element and without tagged row, whatever the store holds. *)
Theorem X8_disabled_stays_retracted (cs : list Command) (w : World) :
  inSync w ->
  enabled (settings w) = false ->
  forallb (fun c => negb (isToggle c)) cs = true ->
  enabled (settings (run cs w)) = false
  /\ retracted (document (run cs w)) = true.
Proof.
  intros Hsync He Hcs.
  assert (E : enabled (settings (run cs w)) = false).
  { clear Hsync. revert w He.
    induction cs as [|c cs IH]; intros w He; [exact He|].
    cbn in Hcs. apply andb_true_iff in Hcs. destruct Hcs as [Hc Hcs].
    cbn [run fold_left]. apply (IH Hcs).
    rewrite enabled_perform; [exact He | apply negb_true_iff, Hc]. }
  split; [exact E|].
  pose proof (inSync_run cs w Hsync) as H. unfold inSync in H.
  rewrite H. unfold presentation. rewrite E.
  rewrite removeDividers_retracted; apply retracted_bareDocument.
Qed.

Lemma X8_disabled_witness :
  let w := run [Toggle]
             (startSession None (Some [freshRow nav_folder (js "Animals")])) in
  let w' := run [Add (js "Animals") folder below; LayoutChange;
                 Add (js "Animals") folder above;
                 RemoveOne (js "Animals") folder below] w in
  enabled (settings w') = false
  /\ retracted (document w') = true
  /\ length (dividers (settings w')) = 1%nat.
Proof.
  intros w w'.
  assert (H : inSync w).
  { apply inSync_run, inSync_startSession. reflexivity. }
  destruct (X8_disabled_stays_retracted
              [Add (js "Animals") folder below; LayoutChange;
               Add (js "Animals") folder above;
               RemoveOne (js "Animals") folder below] w H eq_refl eq_refl)
    as [H1 H2].
  split; [exact H1 | split; [exact H2 | reflexivity]].
Defined.

(** ** Timers *)

Lemma iter_onLayoutChange (n : nat) (ss : Session) :
  enabled (settings (world ss)) = true ->
  Nat.iter n onLayoutChange ss = mkSession (world ss) (n + timers ss).
Proof.
  intros He. induction n as [|n IH]; [destruct ss; reflexivity|].
  cbn [Nat.iter nat_rect]. unfold Nat.iter in IH. rewrite IH.
  unfold onLayoutChange. cbn [world timers]. rewrite He. reflexivity.
Qed.

Lemma iter_onTimeout (n k : nat) (w : World) :
  Nat.iter n onTimeout (mkSession w (n + k))
  = mkSession (Nat.iter n applyDividers w) k.
Proof.
  revert k. induction n as [|n IH]; intros k; [reflexivity|].
  cbn [Nat.iter nat_rect]. unfold Nat.iter in IH.
  replace (S n + k)%nat with (n + S k)%nat by lia. rewrite IH. reflexivity.
Qed.

Lemma iter_applyDividers (n : nat) (w : World) :
  wellFormed (document w) = true ->
  Nat.iter (S n) applyDividers w = applyDividers w.
Proof.
  intros H. induction n as [|n IH]; [reflexivity|].
  change (Nat.iter (S (S n)) applyDividers w)
    with (applyDividers (Nat.iter (S n) applyDividers w)).
  rewrite IH. rewrite !applyDividers_eq. cbn [settings document notices savedData].
  rewrite applyDividers_idem by exact H. reflexivity.
Qed.

(** X9.  The timer of a layout change does not look at the settings when
    it fires.  If dividers are disabled, or the plugin unloaded, after the
    layout change and before its timer fires, the timer applies the
    dividers all the same: the document then shows them although they are
    disabled (or although [onunload] has retracted them). *)
Theorem X9_timer_applies_after_disabling (ss : Session) :
  enabled (settings (world ss)) = true ->
  wellFormed (document (world ss)) = true ->
  dividers (settings (world ss)) <> [] ->
  let applied := Dom.applyDividers (settings (world ss)) (document (world ss)) in
  let off := onTimeout (during toggleDividers (onLayoutChange ss)) in
  let gone := onTimeout (during onunload (onLayoutChange ss)) in
  enabled (settings (world off)) = false
  /\ document (world off) = applied
  /\ document (world gone) = applied
  /\ styleElements applied = [cssRules (settings (world ss))]
  /\ retracted applied = false.
Proof.
  intros He Hwf Hne applied off gone.
  assert (Hst : styleElements applied = [cssRules (settings (world ss))])
    by (apply styleElements_applyDividers; assumption).
  unfold off, gone, onLayoutChange. rewrite He.
  unfold during, onTimeout, onunload. cbn [world timers].
  rewrite toggleDividers_eq, !applyDividers_eq, removeDividers_eq.
  cbn [settings document enabled setEnabled]. rewrite He. cbn [negb].
  rewrite (removeDividers_wellFormed _ Hwf).
  split; [reflexivity | split; [|split; [|split]]].
  - change (Dom.applyDividers _ ?d)
      with (Dom.applyDividers (settings (world ss)) d).
    symmetry. apply applyDividers_bareDocument, Hwf.
  - symmetry. apply applyDividers_bareDocument, Hwf.
  - exact Hst.
  - unfold retracted. rewrite Hst. reflexivity.
Qed.

Lemma X9_timer_witness :
  let w := run [Add (js "Animals") folder below]
             (startSession None (Some [freshRow nav_folder (js "Animals")])) in
  let ss := mkSession w 0 in
  let off := onTimeout (during toggleDividers (onLayoutChange ss)) in
  enabled (settings (world off)) = false
  /\ document (world off) = document w
  /\ retracted (document (world off)) = false
  /\ retracted (document (world (during toggleDividers ss))) = true.
Proof.
  intros w ss off.
  assert (Hne : dividers (settings (world ss)) <> []) by discriminate.
  destruct (X9_timer_applies_after_disabling ss eq_refl eq_refl Hne)
    as (H1 & H2 & _ & _ & H5).
  unfold off.
  split; [exact H1 | split; [rewrite H2; reflexivity | split; [|reflexivity]]].
  rewrite H2. exact H5.
Defined.

(** X10.  There is one timer per layout change, none is cancelled; but a
    burst costs nothing in the result: when dividers are enabled, [n >= 1]
    layout changes followed by their [n] timers leave what a single
    [applyDividers] leaves.  When dividers are disabled, a layout change
    starts no timer. *)
Theorem X10_burst_of_layout_changes (n : nat) (ss : Session) :
  wellFormed (document (world ss)) = true ->
  (enabled (settings (world ss)) = true ->
     Nat.iter (S n) onLayoutChange ss
     = mkSession (world ss) (S n + timers ss)
     /\ Nat.iter (S n) onTimeout (Nat.iter (S n) onLayoutChange ss)
        = mkSession (applyDividers (world ss)) (timers ss))
  /\ (enabled (settings (world ss)) = false ->
      Nat.iter n onLayoutChange ss = ss).
Proof.
  intros Hwf. split.
  - intros He. rewrite (iter_onLayoutChange (S n) ss He).
    split; [reflexivity|].
    rewrite iter_onTimeout, iter_applyDividers by exact Hwf. reflexivity.
  - intros He. induction n as [|n IH]; [reflexivity|].
    cbn [Nat.iter nat_rect]. unfold Nat.iter in IH. rewrite IH.
    unfold onLayoutChange. rewrite He. reflexivity.
Qed.

Lemma X10_burst_witness :
  let w := run [Add (js "Animals") folder below]
             (startSession None (Some [freshRow nav_folder (js "Animals")])) in
  Nat.iter 3 onTimeout (Nat.iter 3 onLayoutChange (mkSession w 0))
  = mkSession w 0
  /\ Nat.iter 3 onLayoutChange (mkSession (toggleDividers w) 0)
     = mkSession (toggleDividers w) 0.
Proof.
  intros w.
  destruct (X10_burst_of_layout_changes 2 (mkSession w 0) eq_refl) as [H _].
  destruct (X10_burst_of_layout_changes 3 (mkSession (toggleDividers w) 0)
              eq_refl) as [_ H'].
  destruct (H eq_refl) as [_ H2].
  split; [rewrite H2; reflexivity | apply H'; reflexivity].
Defined.

(** ** The context menu *)

Lemma isSome_find {A : Type} (f : A -> bool) (l : list A) :
  isSome (find f l) = existsb f l.
Proof.
  induction l as [|x l IH]; [reflexivity|]. cbn. destruct (f x); auto.
Qed.

Lemma fileMenu_commands (s : FilesDividersSettings) (name : jsstring)
  (type : ItemType) :
  map onClick (fileMenu s name type) =
  (if existsb (sameItemAt name type above) (dividers s)
   then RemoveOne name type above else Add name type above)
  :: (if existsb (sameItemAt name type below) (dividers s)
      then RemoveOne name type below else Add name type below)
  :: (if existsb (sameItemAt name type above) (dividers s)
         || existsb (sameItemAt name type below) (dividers s)
      then [RemoveAll name type] else []).
Proof.
  unfold fileMenu. rewrite <- !isSome_find.
  destruct (find (sameItemAt name type above) (dividers s)),
           (find (sameItemAt name type below) (dividers s)); reflexivity.
Qed.

Lemma effective_command_saves (c : Command) (w : World) :
  length (dividers (settings (perform c w)))
  <> length (dividers (settings w)) ->
  savedData (perform c w) = savedData w ++ [settings (perform c w)].
Proof.
  intros H. destruct (perform_saves_changes c w) as [[E _] | [_ E]];
    [|exact E]. rewrite E in H. congruence.
Qed.

Lemma length_after_add name type pos w :
  existsb (sameItemAt name type pos) (dividers (settings w)) = false ->
  length (dividers (settings (addDividerToItem name type pos w)))
  = S (length (dividers (settings w))).
Proof.
  intros H. rewrite addDividerToItem_eq, H. unfold Notice.
  rewrite saveSettings_presentation. cbn. rewrite length_app. cbn. lia.
Qed.

Lemma length_after_removeOne name type pos w :
  existsb (sameItemAt name type pos) (dividers (settings w)) = true ->
  (length (dividers (settings (removeDividerFromItem name type pos w)))
   < length (dividers (settings w)))%nat.
Proof.
  intros H. rewrite settings_removeDividerFromItem. cbn.
  apply Nat.ltb_lt. rewrite filter_shorter. exact H.
Qed.

Lemma length_after_removeAll name type w :
  existsb (sameItem name type) (dividers (settings w)) = true ->
  (length (dividers (settings (removeDividersFromItem name type w)))
   < length (dividers (settings w)))%nat.
Proof.
  intros H. rewrite settings_removeDividersFromItem. cbn.
  apply Nat.ltb_lt. rewrite filter_shorter. exact H.
Qed.

(** X11.  The context menu only offers what takes effect.  For any item, it
    has an entry for above and one for below, and a third one, to remove all,
    exactly when the item has a record; whichever entry is clicked, the
    number of records changes and the new settings are saved: the menu never
    leads to the notice that a divider already exists, nor to a removal that
    finds nothing. *)
Theorem X11_menu_entries_take_effect (w : World) (name : jsstring)
  (type : ItemType) (it : MenuItem) :
  In it (fileMenu (settings w) name type) ->
  let w' := perform (onClick it) w in
  length (dividers (settings w')) <> length (dividers (settings w))
  /\ savedData w' = savedData w ++ [settings w']
  /\ length (fileMenu (settings w) name type)
     = (if existsb (sameItem name type) (dividers (settings w))
        then 3 else 2)%nat.
Proof.
  intros Hin w'.
  assert (Hlen : length (dividers (settings w'))
                 <> length (dividers (settings w))).
  { apply (in_map onClick) in Hin. rewrite fileMenu_commands in Hin.
    unfold w'. clear w'. destruct Hin as [E | [E | Hin]].
    - rewrite <- E.
      destruct (existsb (sameItemAt name type above) _) eqn:Ea; cbn [perform].
      + pose proof (length_after_removeOne _ _ _ _ Ea). lia.
      + rewrite (length_after_add _ _ _ _ Ea). lia.
    - rewrite <- E.
      destruct (existsb (sameItemAt name type below) _) eqn:Eb; cbn [perform].
      + pose proof (length_after_removeOne _ _ _ _ Eb). lia.
      + rewrite (length_after_add _ _ _ _ Eb). lia.
    - rewrite <- existsb_sameItem in Hin.
      destruct (existsb (sameItem name type) _) eqn:Es; [|destruct Hin].
      destruct Hin as [E | []]. rewrite <- E. cbn [perform].
      pose proof (length_after_removeAll _ _ _ Es). lia. }
  split; [exact Hlen | split; [apply effective_command_saves, Hlen|]].
  rewrite <- (length_map onClick), fileMenu_commands, existsb_sameItem.
  destruct (_ || _); reflexivity.
Qed.

Lemma X11_menu_witness :
  let w := run [Add (js "Animals") folder below]
             (startSession None (Some [freshRow nav_folder (js "Animals")])) in
  let menu := fileMenu (settings w) (js "Animals") folder in
  map menuTitle menu = [js "Add divider above"; js "Remove divider below";
                        js "Remove all dividers"]
  /\ (forall it, In it menu ->
        savedData (perform (onClick it) w)
        = savedData w ++ [settings (perform (onClick it) w)]).
Proof.
  intros w menu. split; [reflexivity|].
  intros it Hin.
  destruct (X11_menu_entries_take_effect w (js "Animals") folder it Hin)
    as (_ & H & _).
  exact H.
Defined.

(** X12.  The menu follows the store.  After a click on the entry that adds
    a divider at a position, the menu of the item offers to remove it there
    and to remove all; after a click on an entry that removes the divider
    at a position, it offers to add one there; after a click on the entry
    that removes all, it offers the two additions and nothing else. *)
Theorem X12_menu_follows_the_store (w : World) (name : jsstring)
  (type : ItemType) (pos : Position) :
  let offers w c := In c (map onClick (fileMenu (settings w) name type)) in
  (offers w (Add name type pos) ->
   offers (addDividerToItem name type pos w) (RemoveOne name type pos)
   /\ offers (addDividerToItem name type pos w) (RemoveAll name type))
  /\ (offers w (RemoveOne name type pos) ->
      offers (removeDividerFromItem name type pos w) (Add name type pos))
  /\ (offers w (RemoveAll name type) ->
      map onClick (fileMenu (settings (removeDividersFromItem name type w))
                     name type)
      = [Add name type above; Add name type below]).
Proof.
  intros offers. unfold offers. clear offers.
  assert (Hoffer : forall s,
            (In (Add name type pos) (map onClick (fileMenu s name type))
             <-> existsb (sameItemAt name type pos) (dividers s) = false)
            /\ (In (RemoveOne name type pos) (map onClick (fileMenu s name type))
                <-> existsb (sameItemAt name type pos) (dividers s) = true)).
  { intros s. rewrite fileMenu_commands.
    destruct (existsb (sameItemAt name type above) (dividers s)) eqn:Ea,
             (existsb (sameItemAt name type below) (dividers s)) eqn:Eb,
             pos; cbn; rewrite ?Ea, ?Eb;
      split; split; intros H; auto;
      repeat (destruct H as [H | H]; try discriminate; try contradiction);
      auto; discriminate. }
  split; [|split].
  - intros H. apply Hoffer in H.
    assert (E : existsb (sameItemAt name type pos)
                  (dividers (settings (addDividerToItem name type pos w)))
                = true).
    { rewrite addDividerToItem_eq, H. unfold Notice.
      rewrite saveSettings_presentation. cbn. rewrite existsb_app. cbn.
      rewrite sameItemAt_new. apply orb_true_r. }
    split; [apply Hoffer, E|].
    rewrite fileMenu_commands.
    replace (_ || _) with true.
    2:{ symmetry. destruct pos; rewrite E; [reflexivity | apply orb_true_r]. }
    right. right. left. reflexivity.
  - intros H. apply Hoffer.
    rewrite settings_removeDividerFromItem. cbn.
    apply not_true_is_false. rewrite existsb_exists.
    intros (d & Hin & Hd). apply filter_In in Hin.
    destruct Hin as [_ Hf]. rewrite Hd in Hf. discriminate.
  - intros _. rewrite fileMenu_commands.
    rewrite settings_removeDividersFromItem. cbn [dividers setDividers].
    assert (Hnone : forall p,
              existsb (sameItemAt name type p)
                (filter (fun d => negb (sameItem name type d))
                   (dividers (settings w))) = false).
    { intros p. apply not_true_is_false. rewrite existsb_exists.
      intros (d & Hin & Hd). apply filter_In in Hin. destruct Hin as [_ Hf].
      rewrite sameItem_positions in Hf.
      destruct p; rewrite Hd in Hf; [|rewrite orb_true_r in Hf]; discriminate. }
    rewrite !Hnone. reflexivity.
Qed.

Lemma X12_menu_witness :
  let w := startSession None (Some [freshRow nav_folder (js "Animals")]) in
  let titles w := map menuTitle (fileMenu (settings w) (js "Animals") folder) in
  titles w = [js "Add divider above"; js "Add divider below"]
  /\ titles (addDividerToItem (js "Animals") folder above w)
     = [js "Remove divider above"; js "Add divider below";
        js "Remove all dividers"]
  /\ In (RemoveOne (js "Animals") folder above)
       (map onClick (fileMenu
          (settings (addDividerToItem (js "Animals") folder above w))
          (js "Animals") folder)).
Proof.
  intros w titles.
  destruct (X12_menu_follows_the_store w (js "Animals") folder above)
    as (H & _ & _).
  split; [reflexivity | split; [reflexivity|]].
  apply H. left. reflexivity.
Defined.

(** ** Tags *)

Lemma tagWith_matchesRow (d : Divider) (el : Element) :
  tagWith d el = if matchesRow d el then tag d el else el.
Proof.
  unfold tagWith, matchesRow.
  destruct (itemType d), (kind el), (title el); reflexivity.
Qed.

Lemma existsb_rev {A : Type} (f : A -> bool) (l : list A) :
  existsb f (rev l) = existsb f l.
Proof.
  induction l as [|x l IH]; [reflexivity|].
  cbn. rewrite existsb_app, IH. cbn. rewrite orb_false_r. apply orb_comm.
Qed.

Lemma lastMatch_snoc (ds : list Divider) (d : Divider) (el : Element) :
  lastMatch (ds ++ [d]) el
  = if matchesRow d el then Some d else lastMatch ds el.
Proof. unfold lastMatch. rewrite rev_app_distr. reflexivity. Qed.

Lemma lastMatch_Some (ds : list Divider) (el : Element) (d : Divider) :
  lastMatch ds el = Some d -> In d ds /\ matchesRow d el = true.
Proof.
  unfold lastMatch. intros H. apply find_some in H.
  rewrite <- in_rev in H. exact H.
Qed.

Lemma lastMatch_None (ds : list Divider) (el : Element) :
  isSome (lastMatch ds el) = existsb (fun d => matchesRow d el) ds.
Proof. unfold lastMatch. rewrite isSome_find. apply existsb_rev. Qed.

Lemma tagsOf_snoc (ds : list Divider) (d : Divider) (el : Element) :
  tagWith d (tagsOf ds el) = tagsOf (ds ++ [d]) el.
Proof.
  rewrite tagWith_matchesRow.
  change (matchesRow d (tagsOf ds el)) with (matchesRow d el).
  unfold tagsOf. rewrite lastMatch_snoc, !existsb_app. cbn [existsb].
  destruct (matchesRow d el) eqn:M; cbn [andb].
  - unfold tag. cbn [kind title classList option_map].
    destruct (itemType d), (position d); cbn;
      rewrite ?orb_false_r, ?orb_true_r; reflexivity.
  - rewrite !orb_false_r. reflexivity.
Qed.

Lemma fold_tagWith (ds : list Divider) (el : Element) :
  fold_left (fun e d => tagWith d e) ds (bare el) = tagsOf ds el.
Proof.
  induction ds as [|d ds IH] using rev_ind; [reflexivity|].
  rewrite fold_left_app. cbn [fold_left]. rewrite IH. apply tagsOf_snoc.
Qed.

Lemma tagAll_rows (ds : list Divider) (rows : list Element) :
  tagAll ds rows
  = map (fun el => fold_left (fun e d => tagWith d e) ds el) rows.
Proof.
  revert rows. induction ds as [|d ds IH]; intros rows.
  - cbn. symmetry. apply map_id.
  - cbn [tagAll fold_left]. fold (tagAll ds (map (tagWith d) rows)).
    rewrite IH, map_map. reflexivity.
Qed.

Lemma fileExplorer_applyDividers s (doc : Document) :
  wellFormed doc = true ->
  fileExplorer (Dom.applyDividers s doc)
  = option_map (map (tagsOf (dividers s))) (fileExplorer doc).
Proof.
  intros H. rewrite (applyDividers_bareDocument s doc H).
  unfold Dom.applyDividers.
  rewrite removeDividers_retracted by apply retracted_bareDocument.
  destruct (dividers s) as [|d ds] eqn:E; cbn [length Nat.eqb].
  - unfold bareDocument; cbn. destruct (fileExplorer doc); reflexivity.
  - unfold Dom.addDividerClasses, Dom.appendStyle, bareDocument; cbn.
    destruct (fileExplorer doc) as [rows|]; cbn; [|reflexivity].
    rewrite E. fold (tagAll (d :: ds) (map untag (map bare rows))).
    rewrite (map_untag_untagged _ (forallb_untagged_bare rows)).
    rewrite tagAll_rows, map_map. f_equal.
    apply map_ext. intros el. apply (fold_tagWith (d :: ds) el).
Qed.

Lemma untagged_tagsOf (ds : list Divider) (el : Element) :
  untagged (tagsOf ds el) = negb (existsb (fun d => matchesRow d el) ds).
Proof.
  unfold untagged, tagsOf. cbn [classList data_item data_type].
  rewrite <- lastMatch_None.
  destruct (lastMatch ds el) as [d|] eqn:E; cbn.
  - rewrite andb_false_r. reflexivity.
  - assert (H : existsb (fun d => matchesRow d el) ds = false)
      by (rewrite <- lastMatch_None, E; reflexivity).
    assert (Hn : forall t p,
               existsb (fun d => matchesRow d el
                                 && ItemType_eqb (itemType d) t
                                 && Position_eqb (position d) p) ds = false).
    { intros t p. apply not_true_is_false. rewrite existsb_exists.
      intros (d & Hin & Hd). apply andb_true_iff in Hd. destruct Hd as [Hd _].
      apply andb_true_iff in Hd. destruct Hd as [Hd _].
      apply not_true_iff_false in H. apply H, existsb_exists. eauto. }
    unfold noClass. cbn. rewrite !Hn. reflexivity.
Qed.

(** X13.  What [applyDividers] leaves on the rows, said without the loops.
    A row has a class for a type and a position exactly when some record of
    that type and position matches it; its [data-item] and [data-type] are
    those of the last record that matches it; and a row that no record
    matches carries nothing. *)
Theorem X13_tags_in_closed_form (s : FilesDividersSettings) (doc : Document) :
  wellFormed doc = true ->
  fileExplorer (Dom.applyDividers s doc)
  = option_map (map (tagsOf (dividers s))) (fileExplorer doc)
  /\ (forall el,
        untagged (tagsOf (dividers s) el)
        = negb (existsb (fun d => matchesRow d el) (dividers s)))
  /\ (forall d el,
        tagWith d el = if matchesRow d el then tag d el else el).
Proof.
  intros H. split; [apply fileExplorer_applyDividers, H | split].
  - intros el. apply untagged_tagsOf.
  - apply tagWith_matchesRow.
Qed.

Lemma X13_tags_witness :
  let ds := [mkDivider (js "Animals") folder below line;
             mkDivider (js "todo.md") file above line;
             mkDivider (js "Animals") folder above line] in
  let s := mkSettings ds (js "#484848") 1 true in
  let rows := [freshRow nav_folder (js "Animals"); freshRow nav_file (js "todo");
               freshRow nav_file (js "Animals")] in
  fileExplorer (Dom.applyDividers s (mkDocument [] (Some rows)))
  = Some [mkElement nav_folder (Some (js "Animals"))
            (mkClasses true true false false) (Some (js "Animals"))
            (Some (js "folder"));
          mkElement nav_file (Some (js "todo"))
            (mkClasses false false true false) (Some (js "todo.md"))
            (Some (js "file"));
          freshRow nav_file (js "Animals")].
Proof.
  intros ds s rows.
  destruct (X13_tags_in_closed_form s (mkDocument [] (Some rows)) eq_refl)
    as [H _].
  rewrite H. reflexivity.
Defined.

Lemma matchesRow_same_type (d d' : Divider) (el : Element) :
  matchesRow d el = true -> matchesRow d' el = true ->
  itemType d' = itemType d.
Proof.
  unfold matchesRow.
  destruct (itemType d), (itemType d'), (kind el), (title el);
    try discriminate; reflexivity.
Qed.

Lemma matchesRow_folder_name (d d' : Divider) (el : Element) :
  itemType d = folder ->
  matchesRow d el = true -> matchesRow d' el = true ->
  itemName d' = itemName d.
Proof.
  intros Hf H H'. pose proof (matchesRow_same_type d d' el H H') as Ht.
  unfold matchesRow in *. rewrite Ht, Hf in *.
  destruct (kind el), (title el) as [text|]; try discriminate.
  unfold folderMatches in *. apply strictEq_iff in H, H'. congruence.
Qed.

Lemma hasClass_tagsOf (ds : list Divider) (d : Divider) (el : Element) :
  In d ds -> matchesRow d el = true ->
  hasClass (itemType d) (position d) (classList (tagsOf ds el)) = true.
Proof.
  intros Hin Hm.
  assert (H : existsb (fun d0 => matchesRow d0 el
                                 && ItemType_eqb (itemType d0) (itemType d)
                                 && Position_eqb (position d0) (position d))
                ds = true).
  { apply existsb_exists. exists d. split; [exact Hin|].
    rewrite Hm. destruct (itemType d), (position d); reflexivity. }
  unfold tagsOf. cbn [classList].
  destruct (itemType d), (position d); exact H.
Qed.

(** X14.  When does the rule of a record select a row the record matches?
    The selector of the rule names the class of the record's type and
    position, its name as [data-item] and its type as [data-type].  After
    [applyDividers] the row has the class, but its [data-item] is the name of
    the last record that matches it: the rule selects the row exactly when
    that last record has the same name.  This always holds for a folder
    record; for file records of different names that match the same row
    (the test ignores extensions) only the later ones are drawn. *)
Theorem X14_rule_selects_matched_row (ds : list Divider) (d : Divider)
  (el : Element) :
  In d ds -> matchesRow d el = true ->
  hasClass (itemType d) (position d) (classList (tagsOf ds el)) = true
  /\ (carriesSelector d (tagsOf ds el) = true <->
      exists d', lastMatch ds el = Some d' /\ itemName d' = itemName d)
  /\ (itemType d = folder -> carriesSelector d (tagsOf ds el) = true).
Proof.
  intros Hin Hm.
  pose proof (hasClass_tagsOf ds d el Hin Hm) as Hc.
  assert (Hiff : carriesSelector d (tagsOf ds el) = true <->
                 exists d', lastMatch ds el = Some d'
                            /\ itemName d' = itemName d).
  { unfold carriesSelector. rewrite Hc. cbn [andb].
    unfold tagsOf. cbn [data_item data_type].
    destruct (lastMatch ds el) as [d'|] eqn:E; cbn [option_map].
    - pose proof (lastMatch_Some _ _ _ E) as [_ Hm'].
      rewrite (matchesRow_same_type d d' el Hm Hm'), strictEq_refl, andb_true_r.
      rewrite strictEq_iff. split.
      + intros H. exists d'. auto.
      + intros (x & [= <-] & H). exact H.
    - split; [discriminate | intros (x & H & _); discriminate]. }
  split; [exact Hc | split; [exact Hiff|]].
  intros Hf. apply Hiff.
  destruct (lastMatch ds el) as [d'|] eqn:E.
  - exists d'. split; [reflexivity|].
    apply lastMatch_Some in E. destruct E as [_ Hm'].
    apply (matchesRow_folder_name d d' el Hf Hm Hm').
  - exfalso.
    assert (H : isSome (lastMatch ds el) = true).
    { rewrite lastMatch_None. apply existsb_exists. eauto. }
    rewrite E in H. discriminate.
Qed.

Lemma X14_rule_selects_witness :
  let d1 := mkDivider (js "todo.md") file above line in
  let d2 := mkDivider (js "todo.txt") file below line in
  let row := freshRow nav_file (js "todo") in
  let row' := tagsOf [d1; d2] row in
  fileExplorer (Dom.applyDividers (mkSettings [d1; d2] (js "#484848") 1 true)
                  (mkDocument [] (Some [row])))
  = Some [row']
  /\ data_item row' = Some (js "todo.txt")
  /\ classList row' = mkClasses false false true true
  /\ carriesSelector d2 row' = true
  /\ carriesSelector d1 row' = false.
Proof.
  intros d1 d2 row row'.
  assert (H1 : In d1 [d1; d2]) by (left; reflexivity).
  assert (H2 : In d2 [d1; d2]) by (right; left; reflexivity).
  destruct (X14_rule_selects_matched_row [d1; d2] d1 row H1 eq_refl)
    as (_ & Hd1 & _).
  destruct (X14_rule_selects_matched_row [d1; d2] d2 row H2 eq_refl)
    as (_ & Hd2 & _).
  split; [reflexivity | split; [reflexivity | split; [reflexivity | split]]].
  - apply Hd2. exists d2. split; reflexivity.
  - apply not_true_is_false. intros H. apply Hd1 in H.
    destruct H as (d' & [= <-] & H). discriminate.
Defined.

(** X15.  The file test ignores extensions on both sides.  Two names that
    differ only in their last extension match each other, a name matches
    itself, and a name with an extension and the same name without it match
    in both directions: a divider recorded for [todo.md] is also put on files
    shown as [todo.txt] or [todo]. *)
Theorem X15_file_test_ignores_extensions (p e1 e2 : jsstring) :
  e1 <> [] -> forallb isExtChar e1 = true ->
  e2 <> [] -> forallb isExtChar e2 = true ->
  fileMatches (p ++ dot :: e1) (p ++ dot :: e2) = true
  /\ fileMatches (p ++ dot :: e1) p = true
  /\ fileMatches p (p ++ dot :: e1) = true
  /\ fileMatches p p = true.
Proof.
  intros H1 H1' H2 H2'. rewrite !fileMatches_iff.
  rewrite !(withoutExt_strips p e1 H1 H1'), !(withoutExt_strips p e2 H2 H2').
  repeat split; auto.
Qed.

Lemma X15_file_test_witness :
  fileMatches (js "todo" ++ dot :: js "md") (js "todo" ++ dot :: js "txt") = true
  /\ fileMatches (js "todo.md") (js "todo.txt") = true
  /\ folderMatches (js "todo.md") (js "todo.txt") = false.
Proof.
  assert (Hmd : js "md" <> []) by discriminate.
  assert (Htxt : js "txt" <> []) by discriminate.
  destruct (X15_file_test_ignores_extensions (js "todo") (js "md") (js "txt")
              Hmd eq_refl Htxt eq_refl) as (H & _).
  split; [exact H | split; reflexivity].
Defined.

(** ** The settings tab *)

Lemma fileExplorer_presentation s (doc : Document) :
  wellFormed doc = true ->
  fileExplorer (presentation s doc)
  = if enabled s
    then option_map (map (tagsOf (dividers s))) (fileExplorer doc)
    else option_map (map bare) (fileExplorer doc).
Proof.
  intros H. unfold presentation. destruct (enabled s).
  - apply fileExplorer_applyDividers, H.
  - rewrite (removeDividers_wellFormed _ H). reflexivity.
Qed.

Lemma fileExplorer_same_store s s' (doc : Document) :
  wellFormed doc = true ->
  dividers s' = dividers s -> enabled s' = enabled s ->
  fileExplorer (presentation s' doc) = fileExplorer (presentation s doc).
Proof.
  intros H Hd He. rewrite !fileExplorer_presentation by exact H.
  rewrite Hd, He. reflexivity.
Qed.

Lemma inSync_document (w : World) :
  inSync w -> document w = presentation (settings w) (document w).
Proof.
  intros H. rewrite (presentation_bareDocument _ _ (inSync_wellFormed w H)).
  exact H.
Qed.

(** X16.  Changing the color or the thickness in the settings tab changes
    how dividers look and nothing else: the records and the enabled flag
    are kept, the rows keep exactly their tags, the new settings are saved,
    and (dividers enabled, store not empty) the one style element holds the
    rules of the new settings. *)
Theorem X16_appearance_changes_keep_tags (w : World) (c : jsstring) (t : Z) :
  inSync w ->
  let wc := onChangeColor c w in
  let wt := onChangeThickness t w in
  settings wc = setDividerColor c (settings w)
  /\ settings wt = setDividerThickness t (settings w)
  /\ fileExplorer (document wc) = fileExplorer (document w)
  /\ fileExplorer (document wt) = fileExplorer (document w)
  /\ savedData wc = savedData w ++ [settings wc]
  /\ savedData wt = savedData w ++ [settings wt]
  /\ (enabled (settings w) = true -> dividers (settings w) <> [] ->
      styleElements (document wc) = [cssRules (settings wc)]
      /\ styleElements (document wt) = [cssRules (settings wt)]).
Proof.
  intros H wc wt.
  pose proof (inSync_wellFormed w H) as Hwf.
  pose proof (inSync_document w H) as Hdoc.
  unfold wc, wt, onChangeColor, onChangeThickness, andThen.
  rewrite !saveSettings_presentation.
  cbn [settings document notices savedData setSettings].
  repeat split.
  - rewrite Hdoc at 2. apply fileExplorer_same_store; auto.
  - rewrite Hdoc at 2. apply fileExplorer_same_store; auto.
  - unfold presentation. cbn [enabled setDividerColor]. rewrite H0.
    apply styleElements_applyDividers; assumption.
  - unfold presentation. cbn [enabled setDividerThickness]. rewrite H0.
    apply styleElements_applyDividers; assumption.
Qed.

Lemma X16_appearance_witness :
  let w := run [Add (js "Animals") folder below]
             (startSession None (Some [freshRow nav_folder (js "Animals");
                                       freshRow nav_folder (js "Science")])) in
  let w' := onChangeThickness 3 (onChangeColor (js "#ff0000") w) in
  fileExplorer (document w') = fileExplorer (document w)
  /\ styleElements (document w')
     = [cssRules (mkSettings [mkDivider (js "Animals") folder below line]
                    (js "#ff0000") 3 true)]
  /\ styleElements (document w') <> styleElements (document w).
Proof.
  intros w w'.
  assert (H : inSync w) by (apply inSync_run, inSync_startSession; reflexivity).
  destruct (X16_appearance_changes_keep_tags w (js "#ff0000") 3 H)
    as (_ & _ & H3 & _).
  split; [rewrite <- H3; reflexivity | split; [reflexivity | discriminate]].
Defined.

Lemma isFile_isFolder (d : Divider) : isFile d = negb (isFolder d).
Proof. unfold isFile, isFolder. destruct (itemType d); reflexivity. Qed.

Lemma filter_partition_Permutation {A : Type} (f : A -> bool) (l : list A) :
  Permutation (filter f l ++ filter (fun x => negb (f x)) l) l.
Proof.
  induction l as [|x l IH]; [constructor|].
  cbn. destruct (f x); cbn.
  - constructor. exact IH.
  - symmetry. apply Permutation_cons_app. symmetry. exact IH.
Qed.

Lemma indexed_from {A : Type} (k : nat) (l : list A) :
  map fst (combine (seq k (length l)) l) = seq k (length l).
Proof.
  revert k. induction l as [|x l IH]; intros k; [reflexivity|].
  cbn. f_equal. apply IH.
Qed.

Lemma In_indexed_from {A : Type} (k i : nat) (x : A) (l : list A) :
  In (i, x) (combine (seq k (length l)) l) ->
  (k <= i)%nat /\ nth_error l (i - k) = Some x.
Proof.
  revert k. induction l as [|y l IH]; intros k; [intros []|].
  cbn [length seq combine]. intros [[= <- <-] | H].
  - rewrite Nat.sub_diag. split; [lia | reflexivity].
  - apply IH in H. destruct H as [Hk Hn]. split; [lia|].
    replace (i - k)%nat with (S (i - S k)) by lia. exact Hn.
Qed.

Lemma In_indexed {A : Type} (i : nat) (x : A) (l : list A) :
  In (i, x) (indexed l) -> nth_error l i = Some x.
Proof.
  intros H. apply In_indexed_from in H. destruct H as [_ H].
  rewrite Nat.sub_0_r in H. exact H.
Qed.

Lemma entryIndices_group (icon kindName heading : jsstring)
  (group : list (nat * Divider)) :
  entryIndices
    (if (0 <? length group)%nat
     then Heading heading :: map (dividerEntry icon kindName) group
     else [])
  = map fst group.
Proof.
  destruct group as [|e group]; [reflexivity|].
  cbn [length Nat.ltb Nat.leb]. unfold entryIndices. cbn [flat_map app].
  induction (e :: group) as [|x l IH]; [reflexivity|].
  cbn. f_equal. exact IH.
Qed.

Lemma entryIndices_currentDividers (s : FilesDividersSettings) :
  entryIndices (currentDividers s)
  = map fst (filter (fun e => isFolder (snd e)) (indexed (dividers s)))
    ++ map fst (filter (fun e => isFile (snd e)) (indexed (dividers s))).
Proof.
  unfold currentDividers.
  destruct (dividers s) as [|d ds] eqn:E; [reflexivity|].
  cbn [length Nat.eqb]. rewrite <- E.
  unfold entryIndices. rewrite !flat_map_app.
  fold (entryIndices
          (if (0 <? length (filter (fun e => isFolder (snd e))
                              (indexed (dividers s))))%nat
           then Heading (js "Folder Dividers")
                :: map (dividerEntry folderIcon (js "folder"))
                     (filter (fun e => isFolder (snd e)) (indexed (dividers s)))
           else [])).
  fold (entryIndices
          (if (0 <? length (filter (fun e => isFile (snd e))
                              (indexed (dividers s))))%nat
           then Heading (js "File Dividers")
                :: map (dividerEntry fileIcon (js "file"))
                     (filter (fun e => isFile (snd e)) (indexed (dividers s)))
           else [])).
  rewrite !entryIndices_group. cbn. rewrite app_nil_r. reflexivity.
Qed.

Lemma In_group (icon kindName heading name desc : jsstring) (i : nat)
  (group : list (nat * Divider)) :
  In (DividerEntry name desc i)
     (if (0 <? length group)%nat
      then Heading heading :: map (dividerEntry icon kindName) group
      else []) ->
  exists d, In (i, d) group /\ name = icon ++ js " " ++ itemName d.
Proof.
  destruct (0 <? length group)%nat; [|intros []].
  intros [H | H]; [discriminate|].
  apply in_map_iff in H. destruct H as ([j d] & [= <- <- <-] & Hin).
  exists d. split; [exact Hin | reflexivity].
Qed.

Lemma In_currentDividers (s : FilesDividersSettings) (name desc : jsstring)
  (i : nat) :
  In (DividerEntry name desc i) (currentDividers s) ->
  exists d, nth_error (dividers s) i = Some d
            /\ name = (if isFolder d then folderIcon else fileIcon)
                      ++ js " " ++ itemName d.
Proof.
  unfold currentDividers. destruct (_ =? _)%nat.
  - intros [H | []]. discriminate.
  - rewrite !in_app_iff. intros [H | [H | [H | []]]]; [| |discriminate].
    + apply In_group in H. destruct H as (d & Hin & ->).
      apply filter_In in Hin. destruct Hin as [Hin Hf]. cbn in Hf.
      exists d. rewrite Hf. split; [apply In_indexed, Hin | reflexivity].
    + apply In_group in H. destruct H as (d & Hin & ->).
      apply filter_In in Hin. destruct Hin as [Hin Hf]. cbn in Hf.
      rewrite isFile_isFolder in Hf. apply negb_true_iff in Hf.
      exists d. rewrite Hf. split; [apply In_indexed, Hin | reflexivity].
Qed.

(** X17.  The settings tab lists every record exactly once: the folder
    records first, then the file records, each group in the order of the
    store; an entry shows the name of the record at the position it stands
    for.  The button that clears all is there exactly when the store is not
    empty. *)
Theorem X17_tab_lists_every_record (s : FilesDividersSettings) :
  entryIndices (currentDividers s)
  = map fst (filter (fun e => isFolder (snd e)) (indexed (dividers s)))
    ++ map fst (filter (fun e => isFile (snd e)) (indexed (dividers s)))
  /\ Permutation (entryIndices (currentDividers s))
                 (seq 0 (length (dividers s)))
  /\ (forall name desc i,
        In (DividerEntry name desc i) (currentDividers s) ->
        exists d, nth_error (dividers s) i = Some d
                  /\ name = (if isFolder d then folderIcon else fileIcon)
                            ++ js " " ++ itemName d)
  /\ (In ClearAllButton (currentDividers s) <-> dividers s <> []).
Proof.
  split; [apply entryIndices_currentDividers | split; [|split]].
  - rewrite entryIndices_currentDividers.
    rewrite <- map_app, <- (indexed_from 0 (dividers s)).
    apply Permutation_map.
    rewrite (filter_ext (fun e => isFile (snd e))
               (fun e => negb (isFolder (snd e))))
      by (intros e; apply isFile_isFolder).
    apply filter_partition_Permutation.
  - apply In_currentDividers.
  - unfold currentDividers. destruct (dividers s) as [|d ds].
    + cbn. split; [intros [H | []]; discriminate | congruence].
    + cbn [length Nat.eqb]. split; [discriminate|]. intros _.
      rewrite !in_app_iff. right. right. left. reflexivity.
Qed.

Lemma X17_tab_witness :
  let s := mkSettings [mkDivider (js "todo.md") file above line;
                       mkDivider (js "Animals") folder below line;
                       mkDivider (js "Animals") folder above line]
             (js "#484848") 1 true in
  entryIndices (currentDividers s) = [1; 2; 0]%nat
  /\ (exists name desc, In (DividerEntry name desc 0) (currentDividers s)
                        /\ name = fileIcon ++ js " todo.md").
Proof.
  intros s.
  destruct (X17_tab_lists_every_record s) as (H1 & _ & H3 & _).
  split; [rewrite H1; reflexivity|].
  assert (Hin : In (DividerEntry (fileIcon ++ js " todo.md")
                      (js "Divider above the " ++ dquote ++ js "todo.md"
                       ++ dquote ++ js " file") 0)
                   (currentDividers s)).
  { cbn. right. right. right. right. left. reflexivity. }
  destruct (H3 _ _ _ Hin) as (d & _ & _).
  eexists. eexists. split; [exact Hin | reflexivity].
Defined.

Lemma splice1_at {A : Type} (i : nat) (l : list A) :
  (i < length l)%nat -> splice1 (Z.of_nat i) l = without i l.
Proof.
  intros H. unfold splice1, without.
  replace (Z.of_nat i <? 0)%Z with false by (symmetry; apply Z.ltb_ge; lia).
  rewrite Z.min_l by lia. rewrite Nat2Z.id. reflexivity.
Qed.

Lemma splice1_last {A : Type} (l : list A) :
  splice1 (-1) l = removelast l.
Proof.
  unfold splice1. cbn [Z.ltb Z.compare].
  destruct l as [|x l]; [reflexivity|].
  replace (Z.to_nat (Z.max (Z.of_nat (length (x :: l)) + -1) 0))
    with (length l) by (cbn [length]; lia).
  rewrite skipn_all2 by (cbn; lia). rewrite app_nil_r.
  rewrite removelast_firstn_len. reflexivity.
Qed.

Lemma nth_error_without {A : Type} (i j : nat) (l : list A) :
  (i < length l)%nat ->
  nth_error (without i l) j
  = nth_error l (if (j <? i)%nat then j else S j).
Proof.
  intros H. unfold without.
  assert (Hlen : length (firstn i l) = i)
    by (rewrite length_firstn; lia).
  destruct (j <? i)%nat eqn:E.
  - apply Nat.ltb_lt in E.
    rewrite nth_error_app1 by lia. rewrite nth_error_firstn.
    apply Nat.ltb_lt in E. rewrite E. reflexivity.
  - apply Nat.ltb_ge in E.
    rewrite nth_error_app2 by lia. rewrite Hlen, nth_error_skipn.
    f_equal. lia.
Qed.

Lemma onClickRemove_eq (globalIndex : Z) (w : World) :
  onClickRemove globalIndex w =
  let s' := setDividers (splice1 globalIndex (dividers (settings w)))
              (settings w) in
  mkWorld s' (presentation s' (document w)) (notices w) (savedData w ++ [s']).
Proof.
  unfold onClickRemove, andThen. rewrite saveSettings_presentation.
  reflexivity.
Qed.

(** X18.  A click on the Remove button of an entry of the settings tab
    deletes the record the entry stands for, and only that one: the records
    before it and after it are kept in their order, even when one of them has
    the same name, type and position.  The settings are saved and no notice
    is shown.  A click on the button that clears all, which is only there
    when the store is not empty, always clears. *)
Theorem X18_tab_buttons (w : World) (it : TabItem) :
  In it (currentDividers (settings w)) ->
  let ds := dividers (settings w) in
  let w' := clickTabItem it w in
  match it with
  | DividerEntry _ _ i =>
      (i < length ds)%nat
      /\ dividers (settings w') = without i ds
      /\ (forall j, nth_error (dividers (settings w')) j
                    = nth_error ds (if (j <? i)%nat then j else S j))
      /\ S (length (dividers (settings w'))) = length ds
      /\ savedData w' = savedData w ++ [settings w']
      /\ notices w' = notices w
  | ClearAllButton =>
      dividers (settings w') = []
      /\ notices w' = notices w ++ [clearedNotice (length ds)]
  | _ => w' = w
  end.
Proof.
  intros Hin ds w'. destruct it as [text | text | name desc i |];
    try reflexivity.
  - apply In_currentDividers in Hin. destruct Hin as (d & Hn & _).
    assert (Hi : (i < length ds)%nat)
      by (apply nth_error_Some; unfold ds; congruence).
    assert (E : dividers (settings w') = without i ds).
    { unfold w', clickTabItem. rewrite onClickRemove_eq. cbn.
      apply splice1_at, Hi. }
    split; [exact Hi | split; [exact E | split; [|split; [|split]]]].
    + intros j. rewrite E. apply nth_error_without, Hi.
    + rewrite E. unfold without. rewrite length_app, length_firstn, length_skipn.
      lia.
    + unfold w', clickTabItem. rewrite onClickRemove_eq. reflexivity.
    + unfold w', clickTabItem. rewrite onClickRemove_eq. reflexivity.
  - assert (Hne : ds <> []).
    { unfold ds. intros E. unfold currentDividers in Hin. rewrite E in Hin.
      destruct Hin as [H | []]. discriminate. }
    unfold w', clickTabItem, clearAllDividers. fold ds.
    destruct ds as [|d ds']; [congruence|]. cbn [length Nat.eqb].
    unfold andThen, Notice. rewrite saveSettings_presentation.
    split; reflexivity.
Qed.

Lemma X18_tab_buttons_witness :
  let twin := mkDivider (js "Animals") folder below line in
  let s := mkSettings [twin; mkDivider (js "todo.md") file above line; twin]
             (js "#484848") 1 true in
  let w := initialWorld s None in
  dividers (settings
     (clickTabItem (DividerEntry (folderIcon ++ js " Animals")
                      (js "Divider below the " ++ dquote ++ js "Animals"
                       ++ dquote ++ js " folder") 2) w))
  = [twin; mkDivider (js "todo.md") file above line]
  /\ dividers (settings (removeDividerFromItem (js "Animals") folder below w))
     = [mkDivider (js "todo.md") file above line].
Proof.
  intros twin s w.
  assert (Hin : In (DividerEntry (folderIcon ++ js " Animals")
                      (js "Divider below the " ++ dquote ++ js "Animals"
                       ++ dquote ++ js " folder") 2)
                   (currentDividers (settings w))).
  { cbn. right. right. left. reflexivity. }
  pose proof (X18_tab_buttons w _ Hin) as H. cbv zeta in H.
  destruct H as (_ & H & _).
  split; [rewrite H; reflexivity | reflexivity].
Defined.

(** X19.  The Remove button does not check that its record is still in the
    array.  When it is not ([indexOf] gives -1, as on a second click before
    the tab is drawn again) the click deletes the last record of the array,
    whatever it is, and saves; on an empty array it deletes nothing and still
    saves. *)
Theorem X19_stale_remove_button (w : World) (i : nat) :
  let w1 := onClickRemove (-1) w in
  let w2 := onClickRemove (-1) (onClickRemove (Z.of_nat i) w) in
  dividers (settings w1) = removelast (dividers (settings w))
  /\ savedData w1 = savedData w ++ [settings w1]
  /\ ((i < length (dividers (settings w)))%nat ->
      dividers (settings w2)
      = removelast (without i (dividers (settings w)))).
Proof.
  intros w1 w2. unfold w1, w2. rewrite !onClickRemove_eq. cbn.
  rewrite !splice1_last. split; [reflexivity | split; [reflexivity|]].
  intros H. rewrite (splice1_at _ _ H). reflexivity.
Qed.

Lemma X19_stale_witness :
  let s := mkSettings [mkDivider (js "Animals") folder below line;
                       mkDivider (js "Science") folder above line;
                       mkDivider (js "todo.md") file above line]
             (js "#484848") 1 true in
  let w := initialWorld s None in
  dividers (settings (onClickRemove (-1) (onClickRemove 0 w)))
  = [mkDivider (js "Science") folder above line].
Proof.
  intros s w.
  destruct (X19_stale_remove_button w 0) as (_ & _ & H).
  change (onClickRemove 0 w) with (onClickRemove (Z.of_nat 0) w).
  rewrite H; [reflexivity | cbn; lia].
Defined.

(** X20.  The toggle of the settings tab does what [toggleDividers] does,
    without the notice: set to the opposite of the current value it leaves
    the same settings, document and saved data as the command; set to the
    current value it changes neither settings nor document, but saves once
    more. *)
Theorem X20_tab_toggle (w : World) :
  inSync w ->
  let flipped := onChangeEnabled (negb (enabled (settings w))) w in
  let same := onChangeEnabled (enabled (settings w)) w in
  flipped = mkWorld (settings (toggleDividers w)) (document (toggleDividers w))
              (notices w) (savedData (toggleDividers w))
  /\ same = mkWorld (settings w) (document w) (notices w)
              (savedData w ++ [settings w]).
Proof.
  intros H flipped same.
  unfold flipped, same, onChangeEnabled, andThen.
  rewrite !saveSettings_presentation, toggleDividers_eq.
  cbn [settings document notices savedData setSettings].
  split; [reflexivity|].
  assert (E : setEnabled (enabled (settings w)) (settings w) = settings w)
    by (destruct (settings w); reflexivity).
  rewrite E. rewrite <- (inSync_document w H). reflexivity.
Qed.

Lemma X20_tab_toggle_witness :
  let w := run [Add (js "Animals") folder below]
             (startSession None (Some [freshRow nav_folder (js "Animals")])) in
  document (onChangeEnabled false w) = document (toggleDividers w)
  /\ notices (onChangeEnabled false w) = notices w
  /\ document (onChangeEnabled true w) = document w.
Proof.
  intros w.
  assert (H : inSync w) by (apply inSync_run, inSync_startSession; reflexivity).
  destruct (X20_tab_toggle w H) as [H1 H2].
  change (onChangeEnabled false w)
    with (onChangeEnabled (negb (enabled (settings w))) w).
  change (onChangeEnabled true w)
    with (onChangeEnabled (enabled (settings w)) w).
  rewrite H1, H2. repeat split.
Defined.

Lemma styleElements_applyDividers_cases s (doc : Document) :
  wellFormed doc = true ->
  styleElements (Dom.applyDividers s doc)
  = match dividers s with [] => [] | _ :: _ => [cssRules s] end.
Proof.
  intros H. destruct (dividers s) as [|d ds] eqn:E.
  - unfold Dom.applyDividers. rewrite E. cbn [length Nat.eqb].
    rewrite (removeDividers_wellFormed _ H). reflexivity.
  - apply styleElements_applyDividers; [exact H | congruence].
Qed.

(** X21.  The style element, in any order of user actions, layout changes
    and timers of a session.  The document never has two style elements of
    the plugin.  While dividers are enabled it has exactly one when the
    store is not empty, holding the rules of the current settings, and none
    when the store is empty.  While they are disabled it has none, or else
    (a timer has fired since) that same one; it has none when no timer
    fires. *)
Theorem X21_one_style_element (data : option SavedData)
  (explorer : option (list Element)) (es : list Event) :
  retracted (mkDocument [] explorer) = true ->
  let w := world (play es (newSession data explorer)) in
  let one := match dividers (settings w) with
             | [] => []
             | _ :: _ => [cssRules (settings w)]
             end in
  (length (styleElements (document w)) <= 1)%nat
  /\ (enabled (settings w) = true -> styleElements (document w) = one)
  /\ (enabled (settings w) = false ->
      styleElements (document w) = [] \/ styleElements (document w) = one)
  /\ (forallb (fun e => negb (isTimerFired e)) es = true ->
      enabled (settings w) = false ->
      styleElements (document w) = []).
Proof.
  intros Hr w one.
  assert (Hi : inSync (world (newSession data explorer)))
    by (apply inSync_startSession, Hr).
  pose proof (shows_play es _ (inSync_shows _ Hi)) as H. fold w in H.
  assert (Ha : applied w -> styleElements (document w) = one).
  { unfold applied. intros ->.
    apply styleElements_applyDividers_cases, wellFormed_bareDocument. }
  split; [|split; [|split]].
  - pose proof (shows_wellFormed w H) as Hwf. unfold wellFormed in Hwf.
    apply andb_true_iff in Hwf. destruct Hwf as [Hl _].
    apply Nat.leb_le, Hl.
  - intros He. destruct H as [E | [E _]]; [apply Ha, E | congruence].
  - intros _. destruct H as [E | [_ E]]; [right; apply Ha, E | left].
    rewrite E. reflexivity.
  - intros Hes He.
    pose proof (inSync_play es _ Hes Hi) as H'. fold w in H'.
    unfold inSync, presentation in H'. rewrite He in H'. rewrite H'.
    rewrite removeDividers_retracted by apply retracted_bareDocument.
    reflexivity.
Qed.

Lemma X21_one_style_element_witness :
  let explorer := Some [freshRow nav_folder (js "Animals")] in
  let es := [Act (DoAdd (js "Animals") folder below); LayoutChanged;
             LayoutChanged; TimerFired; Act (DoAdd (js "Animals") folder above);
             TimerFired] in
  let w := world (play es (newSession None explorer)) in
  let raced := world (play (es ++ [LayoutChanged; Act DoToggle; TimerFired])
                        (newSession None explorer)) in
  (length (styleElements (document w)) <= 1)%nat
  /\ (length (styleElements (document raced)) <= 1)%nat
  /\ length (styleElements (document w)) = 1%nat
  /\ length (styleElements (document raced)) = 1%nat
  /\ enabled (settings raced) = false.
Proof.
  intros explorer es w raced.
  assert (Hr : retracted (mkDocument [] explorer) = true)
    by (vm_compute; reflexivity).
  destruct (X21_one_style_element None explorer es Hr) as (H & _).
  destruct (X21_one_style_element None explorer
              (es ++ [LayoutChanged; Act DoToggle; TimerFired]) Hr)
    as (H' & _).
  split; [exact H | split; [exact H'|]].
  split; [vm_compute; reflexivity | split; vm_compute; reflexivity].
Defined.

(** X22.  Unloading leaves the explorer as the session found it: after any
    run of commands, [onunload] gives back the document of the start,
    without style element and without tag, and does not touch the settings
    or the saved data. *)
Theorem X22_unload_restores_the_explorer (data : option SavedData)
  (explorer : option (list Element)) (cs : list Command) :
  retracted (mkDocument [] explorer) = true ->
  let w := run cs (startSession data explorer) in
  onunload w = mkWorld (settings w) (mkDocument [] explorer) (notices w)
                 (savedData w).
Proof.
  intros Hr w. unfold onunload. rewrite removeDividers_eq. f_equal.
  pose proof (inSync_run cs _ (inSync_startSession data explorer Hr)) as H.
  fold w in H. rewrite (removeDividers_wellFormed _ (inSync_wellFormed w H)).
  unfold w. rewrite bareDocument_run. rewrite startSession_eq. cbn.
  destruct (enabled _); [rewrite bareDocument_applyDividers|];
    apply bareDocument_retracted, Hr.
Qed.

Lemma X22_unload_witness :
  let explorer := Some [freshRow nav_folder (js "Animals");
                        freshRow nav_file (js "todo")] in
  let w := run [Add (js "Animals") folder below; Add (js "todo.md") file above]
             (startSession None explorer) in
  document (onunload w) = mkDocument [] explorer
  /\ retracted (document w) = false
  /\ length (dividers (settings (onunload w))) = 2%nat.
Proof.
  intros explorer w.
  pose proof (X22_unload_restores_the_explorer None explorer
                [Add (js "Animals") folder below; Add (js "todo.md") file above]
                eq_refl) as H.
  cbv zeta in H. fold explorer in H. fold w in H.
  rewrite H. repeat split.
Defined.

(** X23.  What an addition leaves.  When dividers are enabled and the store
    does not hold the triple, [addDividerToItem] appends the record and
    leaves one style element whose text is the rules of the earlier records,
    each followed by a line break, and then the rule of the new record, at
    the end.  Every row the new record matches (a folder of that name; a
    file whose name passes the file test) then has the class of the record's
    type and position, and has the record's name as [data-item] and its type
    as [data-type], the values the selector of that rule is written with:
    the new record is the last one, so its name is the one the row keeps. *)
Theorem X23_added_divider_rule_and_tags (name : jsstring) (type : ItemType)
  (pos : Position) (w : World) :
  inSync w ->
  enabled (settings w) = true ->
  ~ In (name, type, pos) (map key (dividers (settings w))) ->
  let d := mkDivider name type pos line in
  let w' := addDividerToItem name type pos w in
  dividers (settings w') = dividers (settings w) ++ [d]
  /\ styleElements (document w')
     = [concat (map (fun r => r ++ [10])
                    (map (cssRule (settings w')) (dividers (settings w))))
        ++ cssRule (settings w') d]
  /\ fileExplorer (document w')
     = option_map (map (tagsOf (dividers (settings w'))))
                  (fileExplorer (document w))
  /\ (forall el, matchesRow d el = true ->
        let el' := tagsOf (dividers (settings w')) el in
        hasClass type pos (classList el') = true
        /\ data_item el' = Some name
        /\ data_type el' = Some (match type with
                                  | folder => js "folder"
                                  | file => js "file"
                                  end)).
Proof.
  intros Hsync He Hnew d w'.
  pose proof (inSync_wellFormed w Hsync) as Hwf.
  rewrite <- existsb_sameItemAt in Hnew. apply not_true_is_false in Hnew.
  assert (E : w' = Notice (addedNotice name type pos)
                     (saveSettings
                        (setSettings
                           (fun s => setDividers (dividers s ++ [d]) s) w))).
  { unfold w'. rewrite addDividerToItem_eq, Hnew. reflexivity. }
  rewrite E. unfold Notice. rewrite saveSettings_presentation.
  cbn [settings document setSettings setDividers dividers].
  unfold presentation. cbn [enabled setDividers]. rewrite He.
  split; [reflexivity | split; [|split]].
  - rewrite styleElements_applyDividers; [| exact Hwf |].
    + unfold cssRules. cbn [dividers setDividers].
      rewrite map_app. cbn [map]. unfold nl. rewrite join_snoc. reflexivity.
    + cbn. destruct (dividers (settings w)); discriminate.
  - exact (fileExplorer_applyDividers
             (setDividers (dividers (settings w) ++ [d]) (settings w)) _ Hwf).
  - intros el Hm. cbv zeta.
    pose proof (hasClass_tagsOf (dividers (settings w) ++ [d]) d el) as Hc.
    cbn [itemType position d] in Hc.
    split; [apply Hc; [apply in_or_app; right; left; reflexivity | exact Hm]|].
    unfold tagsOf. cbn [data_item data_type].
    rewrite lastMatch_snoc, Hm. cbn. destruct type; split; reflexivity.
Qed.

Lemma X23_added_divider_witness :
  let w := run [Add (js "todo.txt") file below]
             (startSession None (Some [freshRow nav_file (js "todo")])) in
  let w' := addDividerToItem (js "todo.md") file above w in
  let row' := tagsOf (dividers (settings w')) (freshRow nav_file (js "todo")) in
  data_item row' = Some (js "todo.md")
  /\ hasClass file above (classList row') = true
  /\ row' = mkElement nav_file (Some (js "todo"))
              (mkClasses false false true true) (Some (js "todo.md"))
              (Some (js "file"))
  /\ styleElements (document w')
     = [cssRule (settings w') (mkDivider (js "todo.txt") file below line)
        ++ [10]
        ++ cssRule (settings w') (mkDivider (js "todo.md") file above line)].
Proof.
  intros w w' row'.
  assert (Hr : retracted (mkDocument [] (Some [freshRow nav_file (js "todo")]))
               = true) by (vm_compute; reflexivity).
  assert (H : inSync w) by (apply inSync_run, inSync_startSession, Hr).
  assert (He : enabled (settings w) = true) by (vm_compute; reflexivity).
  assert (Hn : ~ In (js "todo.md", file, above)
                    (map key (dividers (settings w)))).
  { vm_compute. intros [E | []]. discriminate. }
  assert (Hm : matchesRow (mkDivider (js "todo.md") file above line)
                 (freshRow nav_file (js "todo")) = true)
    by (vm_compute; reflexivity).
  destruct (X23_added_divider_rule_and_tags (js "todo.md") file above w H
              He Hn) as (_ & _ & _ & H4).
  destruct (H4 _ Hm) as (Hc & Hd & _).
  split; [exact Hd | split; [exact Hc|]].
  split; vm_compute; reflexivity.
Defined.
